(** * mcp-server-weibo: the crawler of [weibo.py] and the models of [schemas.py]

    A shallow embedding of [WeiboCrawler] (profile lookup, user search and the
    cursor-driven feed traversal) together with the two pydantic models it
    builds, followed by the properties of the pagination engine and of the
    error policy.

    Python values coming out of [response.json()] are the inductive [json];
    exceptions are explicit ([result]); the requests issued and the errors
    logged are threaded through a small state-and-error monad; the [while]
    loop of [extract_weibo_feeds] takes fuel and is proved to need only
    finitely much. *)

From Stdlib Require Import ZArith List String Ascii Bool Lia.
Import ListNotations.

Local Open Scope Z_scope.
Set Warnings "-register-all".

(** ** Python values *)

(** What [json.loads] can produce.  A [JDict] lists the items of the parsed
    [dict] in insertion order, [lookup] taking the first binding of a key.
    Numbers with a fractional part are left out: nothing below reads one.
    A [string] stands for a Python [str], one element per character. *)
Inductive json : Type :=
| JNull
| JBool (b : bool)
| JInt (z : Z)
| JStr (s : string)
| JList (l : list json)
| JDict (kv : list (string * json)).

Definition pydict : Type := list (string * json).

(** The exceptions the crawler can meet.  [HTTPError] stands for every
    subclass of [httpx.HTTPError]; the others are not related to it
    ([httpx.InvalidURL] is not one of its subclasses either). *)
Inductive exn : Type :=
| HTTPError
| JSONDecodeError
| KeyError
| TypeError
| AttributeError
| IndexError
| ValidationError
| InvalidURL.

Inductive result (A : Type) : Type :=
| Ok (a : A)
| Raise (e : exn).
Arguments Ok {A} a.
Arguments Raise {A} e.

(** [bool(v)] *)
Definition truthy (v : json) : bool :=
  match v with
  | JNull => false
  | JBool b => b
  | JInt z => negb (z =? 0)
  | JStr s => negb (String.eqb s EmptyString)
  | JList l => match l with [] => false | _ :: _ => true end
  | JDict kv => match kv with [] => false | _ :: _ => true end
  end.

Fixpoint lookup (k : string) (kv : pydict) : option json :=
  match kv with
  | [] => None
  | (k', v) :: rest => if String.eqb k k' then Some v else lookup k rest
  end.

(** [recv.get(key, default)]: only a dict has the method. *)
Definition py_get (recv : json) (key : string) (default : json) : result json :=
  match recv with
  | JDict kv => Ok (match lookup key kv with Some v => v | None => default end)
  | _ => Raise AttributeError
  end.

(** [recv[key]] with a [str] key. *)
Definition py_getitem (recv : json) (key : string) : result json :=
  match recv with
  | JDict kv => match lookup key kv with Some v => Ok v | None => Raise KeyError end
  | _ => Raise TypeError
  end.

(** [len(v)] *)
Definition py_len (v : json) : result Z :=
  match v with
  | JList l => Ok (Z.of_nat (List.length l))
  | JStr s => Ok (Z.of_nat (String.length s))
  | JDict kv => Ok (Z.of_nat (List.length kv))
  | _ => Raise TypeError
  end.

(** [v[1]] *)
Definition py_index1 (v : json) : result json :=
  match v with
  | JList l => match nth_error l 1 with Some x => Ok x | None => Raise IndexError end
  | JStr s => match String.get 1 s with
              | Some c => Ok (JStr (String c EmptyString))
              | None => Raise IndexError
              end
  | JDict _ => Raise KeyError
  | _ => Raise TypeError
  end.

Fixpoint chars (s : string) : list json :=
  match s with
  | EmptyString => []
  | String c rest => JStr (String c EmptyString) :: chars rest
  end.

(** The elements a [for] loop or a comprehension visits. *)
Definition py_iter (v : json) : result (list json) :=
  match v with
  | JList l => Ok l
  | JStr s => Ok (chars s)
  | JDict kv => Ok (map (fun p => JStr (fst p)) kv)
  | _ => Raise TypeError
  end.

(** [v == s] for a [str] literal [s]. *)
Definition py_eq_str (v : json) (s : string) : bool :=
  match v with
  | JStr s' => String.eqb s' s
  | _ => false
  end.

(** [l[:limit]]: a negative bound counts from the end. *)
Definition py_slice_to {A : Type} (l : list A) (limit : Z) : list A :=
  if 0 <=? limit then firstn (Z.to_nat limit) l
  else firstn (Z.to_nat (Z.of_nat (List.length l) + limit)) l.

(** ** The models of [schemas.py] *)

(** A validated [SinceId: Union[int, str]]. *)
Inductive since_id : Type :=
| CInt (z : Z)
| CStr (s : string).

(** [not sinceId] is the negation of this. *)
Definition since_truthy (c : since_id) : bool :=
  match c with
  | CInt z => negb (z =? 0)
  | CStr s => negb (String.eqb s EmptyString)
  end.

Record PagedFeeds : Type := mkPagedFeeds {
  SinceId : since_id;
  Feeds : list pydict
}.

Record SearchResult : Type := mkSearchResult {
  id : Z;
  nickName : string;
  avatarHD : string;
  description : string
}.

(** Validation of a required [Union[int, str]] field: an [int] and a [str]
    are kept as they are, a [bool] is read as an [int], and [None], a list
    and a dict are rejected (the field is not [Optional]). *)
Definition validate_int_or_str (v : json) : result since_id :=
  match v with
  | JInt z => Ok (CInt z)
  | JStr s => Ok (CStr s)
  | JBool b => Ok (CInt (if b then 1 else 0))
  | _ => Raise ValidationError
  end.

Fixpoint validate_dicts (l : list json) : result (list pydict) :=
  match l with
  | [] => Ok []
  | JDict kv :: rest =>
      match validate_dicts rest with
      | Ok ds => Ok (kv :: ds)
      | Raise e => Raise e
      end
  | _ :: _ => Raise ValidationError
  end.

(** Validation of a required [list[dict]] field. *)
Definition validate_list_of_dict (v : json) : result (list pydict) :=
  match v with
  | JList l => validate_dicts l
  | _ => Raise ValidationError
  end.

(** [PagedFeeds(SinceId=s, Feeds=f)] *)
Definition PagedFeeds_new (s f : json) : result PagedFeeds :=
  match validate_int_or_str s, validate_list_of_dict f with
  | Ok c, Ok ds => Ok (mkPagedFeeds c ds)
  | _, _ => Raise ValidationError
  end.

Definition validate_str (v : json) : result string :=
  match v with
  | JStr s => Ok s
  | _ => Raise ValidationError
  end.

(** ** Requests, upstream and the effects of a call *)

(** The URL templates ([PROFILE_URL], [FEEDS_URL]) live in [consts.py]; a
    request is kept as the template used and the arguments formatted into
    it.  [containerId] is whatever [_get_container_id] returned ([JNull] for
    [None]). *)
Inductive Request : Type :=
| ProfileReq (userId : Z)
| FeedsReq (userId : Z) (containerId : json) (sinceId : since_id)
| SearchReq (keyword : string).

(** What one [client.get] followed by [response.json()] can meet: the
    request raises an [httpx.HTTPError]; or a response arrives, with some
    status, whose body parses to a value or does not parse at all; or httpx
    refuses the URL before anything is sent and raises [httpx.InvalidURL]
    (an ASCII control character in the URL, or a URL longer than it
    allows).  The status is never inspected by the crawler. *)
Inductive Outcome : Type :=
| TransportFailure
| Reply (status : Z) (body : option json)
| UrlRejected.

(** Everything behind [client.get]: the URL check of httpx, the transport
    and the service.  It gives the outcome of a request, given the requests
    already sent in this call. *)
Definition Upstream : Type := list Request -> Request -> Outcome.

(** The characters httpx does not accept in a URL: ASCII and not
    printable. *)
Definition control_char (c : ascii) : bool :=
  ((nat_of_ascii c <? 32) || (nat_of_ascii c =? 127))%nat.

Fixpoint has_control_char (s : string) : bool :=
  match s with
  | EmptyString => false
  | String c rest => control_char c || has_control_char rest
  end.

(** Whether the URL of a request holds a control character.  The values are
    formatted with [str]: an [int], [None] and a [bool] print without one,
    a list or a dict prints the [repr] of its strings, which escapes them,
    and the keyword of a search goes through [urlencode]; so only a [str]
    given as container id or as cursor can bring one in. *)
Definition url_has_control_char (req : Request) : bool :=
  match req with
  | ProfileReq _ => false
  | SearchReq _ => false
  | FeedsReq _ cid since =>
      match cid with JStr s => has_control_char s | _ => false end
      || match since with CStr s => has_control_char s | CInt _ => false end
  end.

(** What is known of the URL check: a URL with a control character is
    refused. *)
Definition refuses_control_characters (up : Upstream) : Prop :=
  forall hist req, url_has_control_char req = true -> up hist req = UrlRejected.

Inductive LogEntry : Type :=
| ProfileFailed (uid : Z)
| ContainerIdFailed (uid : Z)
| FeedsFailed (uid : Z)
| SearchFailed (keyword : string).

Record State : Type := mkState {
  requests : list Request;   (* in the order issued *)
  logged : list LogEntry     (* [self.logger.error] calls, in order *)
}.

Definition st0 : State := mkState [] [].

Definition M (A : Type) : Type := State -> result A * State.

Definition ret {A : Type} (a : A) : M A := fun st => (Ok a, st).

Definition raise {A : Type} (e : exn) : M A := fun st => (Raise e, st).

Definition bind {A B : Type} (m : M A) (k : A -> M B) : M B :=
  fun st =>
    match m st with
    | (Ok a, st') => k a st'
    | (Raise e, st') => (Raise e, st')
    end.

Definition lift {A : Type} (r : result A) : M A := fun st => (r, st).

Declare Scope py_scope.
Delimit Scope py_scope with py.
Notation "x <- m ;; k" := (bind m (fun x => k))
  (at level 61, m at next level, right associativity) : py_scope.
Notation "m ;;; k" := (bind m (fun _ => k))
  (at level 61, right associativity) : py_scope.
Local Open Scope py_scope.

(** [try: body except httpx.HTTPError: handler] *)
Definition try_except_HTTPError {A : Type} (body handler : M A) : M A :=
  fun st =>
    match body st with
    | (Raise HTTPError, st') => handler st'
    | other => other
    end.

Definition logger_error (e : LogEntry) : M unit :=
  fun st => (Ok tt, mkState (requests st) (logged st ++ [e])).

(** [await client.get(url, headers=DEFAULT_HEADERS)]; the value is the body
    as [response.json()] will see it.  A refused URL raises before the
    request is sent, so nothing is recorded for it. *)
Definition client_get (up : Upstream) (req : Request) : M (option json) :=
  fun st =>
    let st' := mkState (requests st ++ [req]) (logged st) in
    match up (requests st) req with
    | TransportFailure => (Raise HTTPError, st')
    | Reply _ body => (Ok body, st')
    | UrlRejected => (Raise InvalidURL, st)
    end.

(** The requests recorded once [req] has been tried in state [st]. *)
Definition requests_after (up : Upstream) (st : State) (req : Request)
    : list Request :=
  match up (requests st) req with
  | UrlRejected => requests st
  | _ => (requests st ++ [req])%list
  end.

(** [response.json()] *)
Definition response_json (body : option json) : M json :=
  match body with
  | Some v => ret v
  | None => raise JSONDecodeError
  end.

(** ** [WeiboCrawler] *)

Definition extract_weibo_profile (up : Upstream) (uid : Z) : M json :=
  try_except_HTTPError
    (response <- client_get up (ProfileReq uid) ;;
     result <- response_json response ;;
     data <- lift (py_getitem result "data") ;;
     lift (py_getitem data "userInfo"))
    (logger_error (ProfileFailed uid) ;;;
     ret (JDict [])).

(** The [for tab in tabs_info] loop of [_get_container_id]; falling off its
    end returns [None]. *)
Fixpoint find_weibo_tab (tabs : list json) : result json :=
  match tabs with
  | [] => Ok JNull
  | tab :: rest =>
      match py_get tab "tabKey" JNull with
      | Raise e => Raise e
      | Ok key =>
          if py_eq_str key "weibo" then py_get tab "containerid" JNull
          else find_weibo_tab rest
      end
  end.

Definition _get_container_id (up : Upstream) (uid : Z) : M json :=
  try_except_HTTPError
    (response <- client_get up (ProfileReq uid) ;;
     data <- response_json response ;;
     d <- lift (py_get data "data" (JDict [])) ;;
     t <- lift (py_get d "tabsInfo" (JDict [])) ;;
     tabs_info <- lift (py_get t "tabs" (JList [])) ;;
     tabs <- lift (py_iter tabs_info) ;;
     lift (find_weibo_tab tabs))
    (logger_error (ContainerIdFailed uid) ;;;
     ret JNull).

Definition _extract_feeds (up : Upstream) (uid : Z) (container_id : json)
    (since : since_id) : M PagedFeeds :=
  try_except_HTTPError
    (response <- client_get up (FeedsReq uid container_id since) ;;
     data <- response_json response ;;
     d <- lift (py_get data "data" (JDict [])) ;;
     info <- lift (py_get d "cardlistInfo" (JDict [])) ;;
     new_since_id <- lift (py_get info "since_id" (JStr "")) ;;
     d' <- lift (py_get data "data" (JDict [])) ;;
     cards <- lift (py_get d' "cards" (JList [])) ;;
     let mblogs := cards in
     if truthy mblogs
     then lift (PagedFeeds_new new_since_id mblogs)
     else lift (PagedFeeds_new new_since_id (JList [])))
    (logger_error (FeedsFailed uid) ;;;
     lift (PagedFeeds_new JNull (JList []))).

(** The [while len(feeds) < limit] loop of [extract_weibo_feeds], one unit
    of fuel per evaluation of its condition; [None] is fuel running out. *)
Fixpoint feeds_loop (fuel : nat) (up : Upstream) (uid : Z) (containerId : json)
    (limit : Z) (feeds : list pydict) (sinceId : since_id) (st : State)
    : option (result (list pydict) * State) :=
  match fuel with
  | O => None
  | S fuel' =>
      if Z.of_nat (List.length feeds) <? limit then
        match _extract_feeds up uid containerId sinceId st with
        | (Raise e, st') => Some (Raise e, st')
        | (Ok pagedFeeds, st') =>
            match Feeds pagedFeeds with
            | [] => Some (Ok feeds, st')
            | _ :: _ =>
                let feeds' := (feeds ++ Feeds pagedFeeds)%list in
                let sinceId' := SinceId pagedFeeds in
                if negb (since_truthy sinceId') then Some (Ok feeds', st')
                else feeds_loop fuel' up uid containerId limit feeds' sinceId' st'
            end
        end
      else Some (Ok feeds, st)
  end.

Definition extract_weibo_feeds (fuel : nat) (up : Upstream) (uid : Z) (limit : Z)
    (st : State) : option (result (list pydict) * State) :=
  match _get_container_id up uid st with
  | (Raise e, st') => Some (Raise e, st')
  | (Ok containerId, st') =>
      feeds_loop fuel up uid containerId limit [] (CStr "") st'
  end.

(** The pages that successive calls of [_extract_feeds] return, each call
    made with the cursor of the page before it, from cursor [since] in state
    [st] to state [st']. *)
Inductive served (up : Upstream) (uid : Z) (cid : json)
    : since_id -> State -> list PagedFeeds -> State -> Prop :=
| served_none since st : served up uid cid since st [] st
| served_page since st page st1 pages st' :
    _extract_feeds up uid cid since st = (Ok page, st1) ->
    served up uid cid (SinceId page) st1 pages st' ->
    served up uid cid since st (page :: pages) st'.

(** The entries of a list of pages, page after page. *)
Definition entries_of (pages : list PagedFeeds) : list pydict :=
  List.concat (map Feeds pages).

(** A page after which the loop goes on if [limit] allows: it has entries
    and a cursor. *)
Definition continues (page : PagedFeeds) : Prop :=
  Feeds page <> [] /\ since_truthy (SinceId page) = true.

Section Search.

(** How pydantic reads a [str] given for an [int] field ([None] when the text
    is not a number); the crawler only passes the value on. *)
Variable int_of_str : string -> option Z.

Definition validate_int (v : json) : result Z :=
  match v with
  | JInt z => Ok z
  | JBool b => Ok (if b then 1 else 0)
  | JStr s => match int_of_str s with Some z => Ok z | None => Raise ValidationError end
  | _ => Raise ValidationError
  end.

(** [SearchResult(id=i, nickName=n, avatarHD=a, description=d)] *)
Definition SearchResult_new (i n a d : json) : result SearchResult :=
  match validate_int i, validate_str n, validate_str a, validate_str d with
  | Ok i', Ok n', Ok a', Ok d' => Ok (mkSearchResult i' n' a' d')
  | _, _, _, _ => Raise ValidationError
  end.

Definition _to_search_result (user : json) : result SearchResult :=
  match py_getitem user "id" with
  | Raise e => Raise e
  | Ok i =>
  match py_getitem user "screen_name" with
  | Raise e => Raise e
  | Ok n =>
  match py_getitem user "avatar_hd" with
  | Raise e => Raise e
  | Ok a =>
  match py_getitem user "description" with
  | Raise e => Raise e
  | Ok d => SearchResult_new i n a d
  end end end end.

(** [[self._to_search_result(item['user']) for item in cardGroup]] *)
Fixpoint search_results (items : list json) : result (list SearchResult) :=
  match items with
  | [] => Ok []
  | item :: rest =>
      match py_getitem item "user" with
      | Raise e => Raise e
      | Ok user =>
          match _to_search_result user with
          | Raise e => Raise e
          | Ok r =>
              match search_results rest with
              | Raise e => Raise e
              | Ok rs => Ok (r :: rs)
              end
          end
      end
  end.

Definition search_weibo_users (up : Upstream) (keyword : string) (limit : Z)
    : M (list SearchResult) :=
  try_except_HTTPError
    (response <- client_get up (SearchReq keyword) ;;
     result <- response_json response ;;
     data <- lift (py_getitem result "data") ;;
     cards <- lift (py_getitem data "cards") ;;
     n <- lift (py_len cards) ;;
     if n <? 2 then ret []
     else
       card <- lift (py_index1 cards) ;;
       cardGroup <- lift (py_getitem card "card_group") ;;
       items <- lift (py_iter cardGroup) ;;
       rs <- lift (search_results items) ;;
       ret (py_slice_to rs limit))
    (logger_error (SearchFailed keyword) ;;;
     ret []).

End Search.

(** ** Upstreams used in the scenarios *)

Definition json_of_since (c : since_id) : json :=
  match c with
  | CInt z => JInt z
  | CStr s => JStr s
  end.

(** The envelope of the feed endpoint: [data.cardlistInfo.since_id] and
    [data.cards]. *)
Definition feed_body (cursor : json) (cards : list json) : json :=
  JDict [("data"%string,
          JDict [("cardlistInfo"%string, JDict [("since_id"%string, cursor)]);
                 ("cards"%string, JList cards)])].

Definition is_feeds_req (r : Request) : bool :=
  match r with
  | FeedsReq _ _ _ => true
  | _ => false
  end.

Definition page_fetches (reqs : list Request) : nat :=
  List.length (filter is_feeds_req reqs).

(** Serves [pages] in order, one per page request, each with its next cursor,
    and an empty page without cursor once they are used up; a page request
    whose URL holds a control character is refused; any other request gets
    [profile]. *)
Definition paged_upstream (profile : Outcome)
    (pages : list (list pydict * since_id)) : Upstream :=
  fun hist req =>
    match req with
    | FeedsReq _ _ _ =>
        if url_has_control_char req then UrlRejected
        else
          match nth_error pages (page_fetches hist) with
          | Some (entries, c) =>
              Reply 200 (Some (feed_body (json_of_since c) (map JDict entries)))
          | None => Reply 200 (Some (feed_body (JStr "") []))
          end
    | _ => profile
    end.

(** Answers every request the same way. *)
Definition constant_upstream (o : Outcome) : Upstream := fun _ _ => o.

(** The envelope of the profile endpoint with one tab. *)
Definition profile_body (tabKey containerid : string) : json :=
  JDict [("data"%string,
          JDict [("userInfo"%string, JDict [("id"%string, JInt 1)]);
                 ("tabsInfo"%string,
                  JDict [("tabs"%string,
                          JList [JDict [("tabKey"%string, JStr tabKey);
                                        ("containerid"%string, JStr containerid)]])])])].


(** Sample data for the scenarios. *)
Definition sample_entry (n : Z) : pydict := [("id"%string, JInt n)].

Definition sample_page (k : Z) : list pydict :=
  map (fun i => sample_entry (k + i)) [0; 1; 2; 3; 4; 5; 6; 7; 8; 9].

Definition sample_user (i : Z) (name : string) : json :=
  JDict [("user"%string,
          JDict [("id"%string, JInt i);
                 ("screen_name"%string, JStr name);
                 ("avatar_hd"%string, JStr "https://example.org/a.jpg");
                 ("description"%string, JStr "")])].

(** The envelope of the search endpoint: a summary card, then the card whose
    group holds the users. *)
Definition search_body (group : list json) : json :=
  JDict [("data"%string,
          JDict [("cards"%string,
                  JList [JDict [("card_type"%string, JInt 11)];
                         JDict [("card_group"%string, JList group)]])])].

Definition five_pages : list (list pydict * since_id) :=
  [(sample_page 0, CStr "4900000000000001");
   (sample_page 10, CInt 4900000000000002);
   (sample_page 20, CStr "4900000000000003");
   (sample_page 30, CStr "4900000000000004");
   (sample_page 40, CStr "")].

Definition five_page_upstream : Upstream :=
  paged_upstream (Reply 200 (Some (profile_body "weibo" "1076031"))) five_pages.

(** The item of a card group that describes the user [r]. *)
Definition user_item (r : SearchResult) : json :=
  JDict [("user"%string,
          JDict [("id"%string, JInt (id r));
                 ("screen_name"%string, JStr (nickName r));
                 ("avatar_hd"%string, JStr (avatarHD r));
                 ("description"%string, JStr (description r))])].

(** A tab of the profile document: a dict, and whether its [tabKey] is
    ["weibo"]. *)
Definition is_dict (v : json) : bool :=
  match v with
  | JDict _ => true
  | _ => false
  end.

Definition is_weibo_tab (tab : json) : bool :=
  match py_get tab "tabKey" JNull with
  | Ok key => py_eq_str key "weibo"
  | Raise _ => false
  end.

Definition other_tab (tab : json) : Prop :=
  is_dict tab = true /\ is_weibo_tab tab = false.

(** ** The requests a step issues *)

Ltac unfold_py :=
  unfold try_except_HTTPError, bind, client_get, response_json, lift, ret,
    raise, logger_error in *.

Ltac break_match :=
  match goal with
  | H : context [match ?x with _ => _ end] |- _ => destruct x eqn:?
  | |- context [match ?x with _ => _ end] => destruct x eqn:?
  end.

Ltac split_pairs :=
  repeat match goal with
         | E : (_, _) = (_, _) |- _ => inversion E; clear E; subst
         end.

(** A refused URL ends the operation at once: [httpx.InvalidURL] goes
    through the handler, and nothing is sent or logged. *)
Lemma _extract_feeds_refused up uid cid since st :
  up (requests st) (FeedsReq uid cid since) = UrlRejected ->
  _extract_feeds up uid cid since st = (Raise InvalidURL, st).
Proof.
  intros H. unfold _extract_feeds; unfold_py. rewrite H. reflexivity.
Qed.

Lemma _get_container_id_refused up uid st :
  up (requests st) (ProfileReq uid) = UrlRejected ->
  _get_container_id up uid st = (Raise InvalidURL, st).
Proof.
  intros H. unfold _get_container_id; unfold_py. rewrite H. reflexivity.
Qed.

(** One page fetch records exactly one request, unless its URL was
    refused. *)
Lemma _extract_feeds_requests_after up uid cid since st :
  requests (snd (_extract_feeds up uid cid since st))
    = requests_after up st (FeedsReq uid cid since).
Proof.
  unfold _extract_feeds, requests_after; unfold_py.
  destruct (up (requests st) (FeedsReq uid cid since)) as [|status body|];
    [reflexivity| |reflexivity].
  simpl. repeat (break_match; simpl in *; try discriminate);
    split_pairs; reflexivity.
Qed.

Lemma _get_container_id_requests_after up uid st :
  requests (snd (_get_container_id up uid st))
    = requests_after up st (ProfileReq uid).
Proof.
  unfold _get_container_id, requests_after; unfold_py.
  destruct (up (requests st) (ProfileReq uid)) as [|status body|];
    [reflexivity| |reflexivity].
  simpl. repeat (break_match; simpl in *; try discriminate);
    split_pairs; reflexivity.
Qed.

(** A page fetch that returns a page has sent its request. *)
Lemma _extract_feeds_requests up uid cid since st page st' :
  _extract_feeds up uid cid since st = (Ok page, st') ->
  requests st' = (requests st ++ [FeedsReq uid cid since])%list.
Proof.
  intros H.
  pose proof (_extract_feeds_requests_after up uid cid since st) as R.
  rewrite H in R. simpl in R. unfold requests_after in R.
  destruct (up (requests st) (FeedsReq uid cid since)) eqn:E; try exact R.
  rewrite (_extract_feeds_refused _ _ _ _ _ E) in H. discriminate.
Qed.

(** A resolution that returns has sent its request. *)
Lemma _get_container_id_requests up uid st cid st' :
  _get_container_id up uid st = (Ok cid, st') ->
  requests st' = (requests st ++ [ProfileReq uid])%list.
Proof.
  intros H.
  pose proof (_get_container_id_requests_after up uid st) as R.
  rewrite H in R. simpl in R. unfold requests_after in R.
  destruct (up (requests st) (ProfileReq uid)) eqn:E; try exact R.
  rewrite (_get_container_id_refused _ _ _ E) in H. discriminate.
Qed.

(** Whatever a page fetch does, it sends its request or none. *)
Lemma _extract_feeds_sends_at_most_one up uid cid since st r st' :
  _extract_feeds up uid cid since st = (r, st') ->
  requests st' = (requests st ++ [FeedsReq uid cid since])%list \/
  requests st' = requests st.
Proof.
  intros H.
  pose proof (_extract_feeds_requests_after up uid cid since st) as R.
  rewrite H in R. simpl in R. unfold requests_after in R.
  destruct (up (requests st) (FeedsReq uid cid since)); auto.
Qed.

Lemma _get_container_id_sends_at_most_one up uid st r st' :
  _get_container_id up uid st = (r, st') ->
  requests st' = (requests st ++ [ProfileReq uid])%list \/
  requests st' = requests st.
Proof.
  intros H.
  pose proof (_get_container_id_requests_after up uid st) as R.
  rewrite H in R. simpl in R. unfold requests_after in R.
  destruct (up (requests st) (ProfileReq uid)); auto.
Qed.

(** ** The pagination loop *)

Lemma feeds_loop_S fuel up uid cid limit feeds since st :
  feeds_loop (S fuel) up uid cid limit feeds since st =
  if Z.of_nat (List.length feeds) <? limit then
    match _extract_feeds up uid cid since st with
    | (Raise e, st') => Some (Raise e, st')
    | (Ok pagedFeeds, st') =>
        match Feeds pagedFeeds with
        | [] => Some (Ok feeds, st')
        | _ :: _ =>
            if negb (since_truthy (SinceId pagedFeeds))
            then Some (Ok (feeds ++ Feeds pagedFeeds)%list, st')
            else feeds_loop fuel up uid cid limit
                   (feeds ++ Feeds pagedFeeds)%list (SinceId pagedFeeds) st'
        end
    end
  else Some (Ok feeds, st).
Proof. reflexivity. Qed.

(** A result obtained with some fuel is the result with any more. *)
Lemma feeds_loop_more_fuel up uid cid limit :
  forall fuel fuel' feeds since st r,
    feeds_loop fuel up uid cid limit feeds since st = Some r ->
    (fuel <= fuel')%nat ->
    feeds_loop fuel' up uid cid limit feeds since st = Some r.
Proof.
  induction fuel as [|fuel IH]; intros fuel' feeds since st r H Hle.
  - discriminate.
  - destruct fuel' as [|fuel']; [lia|].
    rewrite feeds_loop_S in *.
    destruct (Z.of_nat (List.length feeds) <? limit); [|exact H].
    destruct (_extract_feeds up uid cid since st) as [[page|e] st']; [|exact H].
    destruct (Feeds page); [exact H|].
    destruct (negb (since_truthy (SinceId page))); [exact H|].
    apply IH with (fuel' := fuel') in H; [exact H | lia].
Qed.

(** The loop always comes to an end: every iteration that goes on has
    appended a non-empty page, so [limit - len(feeds)] bounds the number of
    iterations. *)
Lemma feeds_loop_terminates up uid cid limit :
  forall m feeds since st,
    (Z.to_nat (limit - Z.of_nat (List.length feeds)) <= m)%nat ->
    exists r, feeds_loop (S m) up uid cid limit feeds since st = Some r.
Proof.
  induction m as [|m IH]; intros feeds since st Hm;
    rewrite feeds_loop_S;
    destruct (Z.of_nat (List.length feeds) <? limit) eqn:Hlt;
    try (eexists; reflexivity).
  - apply Z.ltb_lt in Hlt; lia.
  - apply Z.ltb_lt in Hlt.
    destruct (_extract_feeds up uid cid since st) as [[page|e] st'];
      [|eexists; reflexivity].
    destruct (Feeds page) as [|d ds] eqn:Hf; [eexists; reflexivity|].
    destruct (negb (since_truthy (SinceId page))); [eexists; reflexivity|].
    apply IH. rewrite length_app. simpl List.length. lia.
Qed.

Lemma extract_weibo_feeds_terminates up uid limit st :
  exists r, extract_weibo_feeds (S (Z.to_nat limit)) up uid limit st = Some r.
Proof.
  unfold extract_weibo_feeds.
  destruct (_get_container_id up uid st) as [[cid|e] st'];
    [|eexists; reflexivity].
  apply feeds_loop_terminates. simpl List.length. lia.
Qed.

Lemma feeds_loop_done fuel up uid cid limit feeds since st :
  limit <= Z.of_nat (List.length feeds) ->
  feeds_loop (S fuel) up uid cid limit feeds since st = Some (Ok feeds, st).
Proof.
  intros H. rewrite feeds_loop_S.
  destruct (Z.ltb_spec (Z.of_nat (List.length feeds)) limit); [lia|reflexivity].
Qed.

Lemma feeds_loop_next fuel up uid cid limit feeds since st page st' :
  Z.of_nat (List.length feeds) < limit ->
  _extract_feeds up uid cid since st = (Ok page, st') ->
  Feeds page <> [] ->
  since_truthy (SinceId page) = true ->
  feeds_loop (S fuel) up uid cid limit feeds since st =
  feeds_loop fuel up uid cid limit (feeds ++ Feeds page)%list (SinceId page) st'.
Proof.
  intros Hlt Hpage Hne Htruthy. rewrite feeds_loop_S, Hpage, Htruthy.
  apply Z.ltb_lt in Hlt; rewrite Hlt.
  destruct (Feeds page); [contradiction|reflexivity].
Qed.

Lemma feeds_loop_last fuel up uid cid limit feeds since st page st' :
  Z.of_nat (List.length feeds) < limit ->
  _extract_feeds up uid cid since st = (Ok page, st') ->
  Feeds page <> [] ->
  since_truthy (SinceId page) = false ->
  feeds_loop (S fuel) up uid cid limit feeds since st =
  Some (Ok (feeds ++ Feeds page)%list, st').
Proof.
  intros Hlt Hpage Hne Hfalsy. rewrite feeds_loop_S, Hpage, Hfalsy.
  apply Z.ltb_lt in Hlt; rewrite Hlt.
  destruct (Feeds page); [contradiction|reflexivity].
Qed.

(** ** Stop conditions of the traversal *)

(** C8: in the traversal loop, a fetched page with an empty entry list ends
    the traversal at once, whatever cursor [c] came with it: the entries
    gathered so far are returned and the fetch of that page is the last
    request issued. *)
Theorem empty_page_stops_traversal fuel up uid cid limit feeds since st c st' :
  Z.of_nat (List.length feeds) < limit ->
  _extract_feeds up uid cid since st = (Ok (mkPagedFeeds c []), st') ->
  feeds_loop (S fuel) up uid cid limit feeds since st = Some (Ok feeds, st') /\
  requests st' = (requests st ++ [FeedsReq uid cid since])%list.
Proof.
  intros Hlt Hpage. split.
  - rewrite feeds_loop_S, Hpage. apply Z.ltb_lt in Hlt. rewrite Hlt.
    reflexivity.
  - eapply _extract_feeds_requests; eassumption.
Qed.

Lemma empty_page_stops_traversal_witness :
  let up := constant_upstream (Reply 200 (Some (feed_body (JStr "4900000000000001") []))) in
  let st' := mkState [FeedsReq 1 (JStr "1076031") (CStr "")] [] in
  Z.of_nat (List.length (@nil pydict)) < 5 /\
  _extract_feeds up 1 (JStr "1076031") (CStr "") st0
    = (Ok (mkPagedFeeds (CStr "4900000000000001") []), st') /\
  feeds_loop 4 up 1 (JStr "1076031") 5 [] (CStr "") st0 = Some (Ok [], st') /\
  requests st' = (requests st0 ++ [FeedsReq 1 (JStr "1076031") (CStr "")])%list.
Proof.
  intros up st'.
  split; [simpl; lia|]. split; [reflexivity|].
  apply (empty_page_stops_traversal 3 up 1 (JStr "1076031") 5 [] (CStr "") st0
           (CStr "4900000000000001") st'); [simpl; lia | reflexivity].
Defined.

(** C9: when the first page fetched has entries and the empty string as its
    cursor, [extract_weibo_feeds] returns that page's entries, in order, and
    the requests of the call are the container-id resolution and that one
    page fetch. *)
Theorem first_page_without_cursor_is_the_result
    fuel up uid limit st cid st1 entries st2 :
  0 < limit ->
  _get_container_id up uid st = (Ok cid, st1) ->
  _extract_feeds up uid cid (CStr "") st1
    = (Ok (mkPagedFeeds (CStr "") entries), st2) ->
  entries <> [] ->
  extract_weibo_feeds (S fuel) up uid limit st = Some (Ok entries, st2) /\
  requests st2 =
    (requests st ++ [ProfileReq uid; FeedsReq uid cid (CStr "")])%list.
Proof.
  intros Hlimit Hcid Hpage Hne. split.
  - unfold extract_weibo_feeds. rewrite Hcid.
    rewrite (feeds_loop_last fuel up uid cid limit [] (CStr "") st1
               (mkPagedFeeds (CStr "") entries) st2 Hlimit Hpage Hne eq_refl).
    reflexivity.
  - rewrite (_extract_feeds_requests _ _ _ _ _ _ _ Hpage).
    rewrite (_get_container_id_requests _ _ _ _ _ Hcid).
    rewrite <- app_assoc. reflexivity.
Qed.

Lemma first_page_without_cursor_is_the_result_witness :
  let up := paged_upstream (Reply 200 (Some (profile_body "weibo" "1076031")))
              [(sample_page 0, CStr "")] in
  let cid := JStr "1076031" in
  let st1 := mkState [ProfileReq 7] [] in
  let st2 := mkState [ProfileReq 7; FeedsReq 7 cid (CStr "")] [] in
  0 < 50 /\
  _get_container_id up 7 st0 = (Ok cid, st1) /\
  _extract_feeds up 7 cid (CStr "") st1
    = (Ok (mkPagedFeeds (CStr "") (sample_page 0)), st2) /\
  sample_page 0 <> [] /\
  extract_weibo_feeds 1 up 7 50 st0 = Some (Ok (sample_page 0), st2) /\
  requests st2 =
    (requests st0 ++ [ProfileReq 7; FeedsReq 7 cid (CStr "")])%list.
Proof.
  intros up cid st1 st2.
  split; [lia|]. split; [reflexivity|]. split; [reflexivity|].
  split; [discriminate|].
  apply (first_page_without_cursor_is_the_result 0 up 7 50 st0 cid st1
           (sample_page 0) st2);
    [lia | reflexivity | reflexivity | discriminate].
Defined.

(** C10: a fetched page with entries whose cursor is the integer [0] ends
    the traversal after its entries are appended, exactly as the empty
    string does: [not sinceId] holds of both, and no further page is
    fetched. *)
Theorem zero_cursor_stops_traversal
    fuel up uid cid limit feeds since st c entries st' :
  c = CInt 0 \/ c = CStr "" ->
  Z.of_nat (List.length feeds) < limit ->
  entries <> [] ->
  _extract_feeds up uid cid since st = (Ok (mkPagedFeeds c entries), st') ->
  feeds_loop (S fuel) up uid cid limit feeds since st
    = Some (Ok (feeds ++ entries)%list, st') /\
  requests st' = (requests st ++ [FeedsReq uid cid since])%list.
Proof.
  intros Hc Hlt Hne Hpage. split.
  - apply (feeds_loop_last fuel up uid cid limit feeds since st
             (mkPagedFeeds c entries) st' Hlt Hpage Hne).
    destruct Hc; subst c; reflexivity.
  - eapply _extract_feeds_requests; eassumption.
Qed.

Lemma zero_cursor_stops_traversal_witness :
  let up := paged_upstream TransportFailure
              [(sample_page 0, CInt 0); (sample_page 10, CStr "")] in
  let cid := JStr "1076031" in
  let st' := mkState [FeedsReq 7 cid (CStr "")] [] in
  (CInt 0 = CInt 0 \/ CInt 0 = CStr "") /\
  Z.of_nat (List.length (@nil pydict)) < 50 /\
  sample_page 0 <> [] /\
  _extract_feeds up 7 cid (CStr "") st0
    = (Ok (mkPagedFeeds (CInt 0) (sample_page 0)), st') /\
  feeds_loop 9 up 7 cid 50 [] (CStr "") st0 = Some (Ok (sample_page 0), st') /\
  requests st' = (requests st0 ++ [FeedsReq 7 cid (CStr "")])%list.
Proof.
  intros up cid st'.
  split; [left; reflexivity|]. split; [simpl; lia|].
  split; [discriminate|]. split; [reflexivity|].
  apply (zero_cursor_stops_traversal 8 up 7 cid 50 [] (CStr "") st0 (CInt 0)
           (sample_page 0) st');
    [left; reflexivity | simpl; lia | discriminate | reflexivity].
Defined.

(** ** Whole pages *)

Lemma validate_dicts_map_JDict (entries : list pydict) :
  validate_dicts (map JDict entries) = Ok entries.
Proof.
  induction entries as [|d ds IH]; simpl; [reflexivity|].
  rewrite IH; reflexivity.
Qed.

Lemma length_10_nonempty (A : Type) (l : list A) :
  List.length l = 10%nat -> l <> [].
Proof. destruct l; [discriminate | intros _; discriminate]. Qed.

Lemma page_fetches_app (a b : list Request) :
  page_fetches (a ++ b) = (page_fetches a + page_fetches b)%nat.
Proof. unfold page_fetches. rewrite filter_app, length_app. reflexivity. Qed.

Lemma entries_of_cons (page : PagedFeeds) (pages : list PagedFeeds) :
  entries_of (page :: pages) = (Feeds page ++ entries_of pages)%list.
Proof. reflexivity. Qed.

(** Every page served has cost one page fetch. *)
Lemma served_page_fetches up uid cid since st pages st' :
  served up uid cid since st pages st' ->
  page_fetches (requests st')
    = (page_fetches (requests st) + List.length pages)%nat.
Proof.
  induction 1 as [since st|since st page st1 pages st' Hfetch _ IH].
  - simpl. lia.
  - rewrite IH, (_extract_feeds_requests _ _ _ _ _ _ _ Hfetch).
    rewrite page_fetches_app.
    change (page_fetches [FeedsReq uid cid since]) with 1%nat.
    simpl List.length. lia.
Qed.

(** When the pages before [last] all leave the loop running and [last] is
    the page with which [limit] is reached (or the cursor ends), the loop
    returns every entry of every page, [last] included in full. *)
Lemma feeds_loop_whole_pages up uid cid limit :
  forall pages feeds since st last st' fuel,
    served up uid cid since st (pages ++ [last]) st' ->
    Forall continues pages ->
    Feeds last <> [] ->
    Z.of_nat (List.length (feeds ++ entries_of pages)) < limit ->
    limit <= Z.of_nat (List.length (feeds ++ entries_of (pages ++ [last]))) \/
    since_truthy (SinceId last) = false ->
    feeds_loop (List.length pages + 2 + fuel) up uid cid limit feeds since st
      = Some (Ok (feeds ++ entries_of (pages ++ [last]))%list, st').
Proof.
  induction pages as [|page pages IH];
    intros feeds since st last st' fuel Hserved Hcont Hlast Hbelow Hstop.
  - inversion Hserved as [|? ? ? st1 ? ? Hfetch Hrest]; subst.
    inversion Hrest; subst.
    change (List.length (@nil PagedFeeds) + 2 + fuel)%nat with (S (S fuel)).
    change (entries_of ([] ++ [last])) with (Feeds last ++ [])%list in *.
    change (entries_of []) with (@nil pydict) in Hbelow.
    rewrite app_nil_r in Hbelow. rewrite app_nil_r in Hstop.
    rewrite app_nil_r.
    destruct (since_truthy (SinceId last)) eqn:Htruthy.
    + rewrite (feeds_loop_next _ _ _ _ _ _ _ _ _ _ Hbelow Hfetch Hlast Htruthy).
      apply feeds_loop_done. destruct Hstop; [assumption|discriminate].
    + apply (feeds_loop_last _ _ _ _ _ _ _ _ _ _ Hbelow Hfetch Hlast Htruthy).
  - inversion Hserved as [|? ? ? st1 ? ? Hfetch Hrest]; subst.
    inversion Hcont as [|? ? [Hne Htruthy] Hcont']; subst.
    change ((page :: pages) ++ [last])%list
      with (page :: (pages ++ [last]))%list in *.
    rewrite entries_of_cons, app_assoc in Hbelow.
    rewrite entries_of_cons, app_assoc in Hstop.
    rewrite entries_of_cons, app_assoc.
    change (List.length (page :: pages) + 2 + fuel)%nat
      with (S (List.length pages + 2 + fuel)).
    rewrite (feeds_loop_next _ up uid cid limit feeds since st page st1);
      [| rewrite !length_app in Hbelow; lia
       | exact Hfetch | exact Hne | exact Htruthy].
    apply (IH (feeds ++ Feeds page)%list (SinceId page) st1 last st' fuel);
      assumption.
Qed.

(** C4: pages are never split.  In general: when [limit] is reached with
    the page [last], fetched while fewer than [limit] entries were held,
    the call returns all the entries of all the pages fetched, [last]
    included in full, and fetches nothing after it.  In the scenario: three
    fetches that return pages of ten entries with non-empty cursors (more
    pages being on offer after the third) and [limit = 25] give exactly
    those three fetches and the thirty entries, in order. *)
Theorem pages_are_never_split up uid st cid st1 :
  _get_container_id up uid st = (Ok cid, st1) ->
  (forall limit pages last st' fuel,
     served up uid cid (CStr "") st1 (pages ++ [last]) st' ->
     Forall continues pages ->
     Feeds last <> [] ->
     Z.of_nat (List.length (entries_of pages)) < limit ->
     limit <= Z.of_nat (List.length (entries_of (pages ++ [last]))) ->
     extract_weibo_feeds (List.length pages + 2 + fuel) up uid limit st
       = Some (Ok (entries_of (pages ++ [last])), st') /\
     page_fetches (requests st')
       = (page_fetches (requests st) + List.length pages + 1)%nat) /\
  (forall c1 p1 st2 c2 p2 st3 c3 p3 st4 fuel,
     _extract_feeds up uid cid (CStr "") st1 = (Ok (mkPagedFeeds c1 p1), st2) ->
     _extract_feeds up uid cid c1 st2 = (Ok (mkPagedFeeds c2 p2), st3) ->
     _extract_feeds up uid cid c2 st3 = (Ok (mkPagedFeeds c3 p3), st4) ->
     List.length p1 = 10%nat -> List.length p2 = 10%nat ->
     List.length p3 = 10%nat ->
     since_truthy c1 = true -> since_truthy c2 = true ->
     since_truthy c3 = true ->
     extract_weibo_feeds (4 + fuel) up uid 25 st
       = Some (Ok (p1 ++ p2 ++ p3)%list, st4) /\
     List.length (p1 ++ p2 ++ p3)%list = 30%nat /\
     requests st4 = (requests st ++
                       [ProfileReq uid; FeedsReq uid cid (CStr "");
                        FeedsReq uid cid c1; FeedsReq uid cid c2])%list /\
     page_fetches (requests st4) = (page_fetches (requests st) + 3)%nat).
Proof.
  intros Hcid.
  pose proof (_get_container_id_requests _ _ _ _ _ Hcid) as Hreq1.
  assert (General :
    forall limit pages last st' fuel,
      served up uid cid (CStr "") st1 (pages ++ [last]) st' ->
      Forall continues pages ->
      Feeds last <> [] ->
      Z.of_nat (List.length (entries_of pages)) < limit ->
      limit <= Z.of_nat (List.length (entries_of (pages ++ [last]))) ->
      extract_weibo_feeds (List.length pages + 2 + fuel) up uid limit st
        = Some (Ok (entries_of (pages ++ [last])), st') /\
      page_fetches (requests st')
        = (page_fetches (requests st) + List.length pages + 1)%nat).
  { intros limit pages last st' fuel Hserved Hcont Hlast Hbelow Hreach.
    split.
    - unfold extract_weibo_feeds. rewrite Hcid.
      apply (feeds_loop_whole_pages up uid cid limit pages [] (CStr "") st1
               last st' fuel Hserved Hcont Hlast Hbelow).
      left. exact Hreach.
    - rewrite (served_page_fetches _ _ _ _ _ _ _ Hserved).
      rewrite Hreq1, page_fetches_app, length_app.
      change (page_fetches [ProfileReq uid]) with 0%nat.
      simpl List.length. lia. }
  split; [exact General|].
  intros c1 p1 st2 c2 p2 st3 c3 p3 st4 fuel F1 F2 F3 L1 L2 L3 T1 T2 T3.
  destruct (General 25 [mkPagedFeeds c1 p1; mkPagedFeeds c2 p2]
              (mkPagedFeeds c3 p3) st4 (0 + fuel)%nat) as [Hrun Hcount].
  - apply (served_page _ _ _ _ _ _ _ _ _ F1).
    apply (served_page _ _ _ _ _ _ _ _ _ F2).
    apply (served_page _ _ _ _ _ _ _ _ _ F3).
    apply served_none.
  - repeat constructor; simpl;
      auto using length_10_nonempty.
  - exact (length_10_nonempty _ _ L3).
  - unfold entries_of. simpl. rewrite app_nil_r, length_app, L1, L2. lia.
  - unfold entries_of. simpl. rewrite app_nil_r, !length_app, L1, L2, L3. lia.
  - unfold entries_of in Hrun. simpl in Hrun. rewrite app_nil_r in Hrun.
    split; [exact Hrun|].
    split; [rewrite !length_app, L1, L2, L3; reflexivity|].
    split; [|simpl in Hcount; lia].
    rewrite (_extract_feeds_requests _ _ _ _ _ _ _ F3).
    rewrite (_extract_feeds_requests _ _ _ _ _ _ _ F2).
    rewrite (_extract_feeds_requests _ _ _ _ _ _ _ F1).
    rewrite Hreq1, <- !app_assoc. reflexivity.
Qed.

Lemma pages_are_never_split_witness :
  let cid := JStr "1076031" in
  let c1 := CStr "4900000000000001" in
  let c2 := CInt 4900000000000002 in
  let st1 := mkState [ProfileReq 7] [] in
  let st2 := mkState [ProfileReq 7; FeedsReq 7 cid (CStr "")] [] in
  let st3 := mkState [ProfileReq 7; FeedsReq 7 cid (CStr "");
                      FeedsReq 7 cid c1] [] in
  let st4 := mkState [ProfileReq 7; FeedsReq 7 cid (CStr "");
                      FeedsReq 7 cid c1; FeedsReq 7 cid c2] [] in
  _get_container_id five_page_upstream 7 st0 = (Ok cid, st1) /\
  _extract_feeds five_page_upstream 7 cid (CStr "") st1
    = (Ok (mkPagedFeeds c1 (sample_page 0)), st2) /\
  _extract_feeds five_page_upstream 7 cid c1 st2
    = (Ok (mkPagedFeeds c2 (sample_page 10)), st3) /\
  (extract_weibo_feeds 3 five_page_upstream 7 12 st0
     = Some (Ok (sample_page 0 ++ sample_page 10)%list, st3) /\
   page_fetches (requests st3) = 2%nat) /\
  (extract_weibo_feeds 4 five_page_upstream 7 25 st0
     = Some (Ok (sample_page 0 ++ sample_page 10 ++ sample_page 20)%list, st4) /\
   List.length (sample_page 0 ++ sample_page 10 ++ sample_page 20)%list
     = 30%nat /\
   requests st4 = [ProfileReq 7; FeedsReq 7 cid (CStr "");
                   FeedsReq 7 cid c1; FeedsReq 7 cid c2] /\
   page_fetches (requests st4) = 3%nat).
Proof.
  intros cid c1 c2 st1 st2 st3 st4.
  destruct (pages_are_never_split five_page_upstream 7 st0 cid st1 eq_refl)
    as [General Scenario].
  split; [reflexivity|]. split; [reflexivity|]. split; [reflexivity|].
  split.
  - apply (General 12 [mkPagedFeeds c1 (sample_page 0)]
             (mkPagedFeeds c2 (sample_page 10)) st3 0%nat).
    + apply (served_page _ _ _ _ st1 (mkPagedFeeds c1 (sample_page 0)) st2);
        [reflexivity|].
      apply (served_page _ _ _ _ st2 (mkPagedFeeds c2 (sample_page 10)) st3);
        [reflexivity|].
      apply served_none.
    + repeat constructor. discriminate.
    + discriminate.
    + simpl. lia.
    + simpl. lia.
  - apply (Scenario c1 (sample_page 0) st2 c2 (sample_page 10) st3
             (CStr "4900000000000003") (sample_page 20) st4 0%nat);
      reflexivity.
Defined.

(** ** Termination under a repeating cursor *)






(** ** Search *)

Lemma py_slice_to_length (A : Type) (l : list A) (limit : Z) :
  0 <= limit -> Z.of_nat (List.length (py_slice_to l limit)) <= limit.
Proof.
  intros H. unfold py_slice_to.
  destruct (Z.leb_spec 0 limit); [|lia].
  rewrite length_firstn. lia.
Qed.

(** C5, as the code has it: for a [limit] that is not negative,
    [search_weibo_users] never returns more than [limit] results; and, for
    every [limit], a response whose card list has fewer than two entries
    gives the empty list. *)
Theorem search_returns_at_most_limit int_of_str up keyword limit st :
  (0 <= limit ->
   forall rs st',
     search_weibo_users int_of_str up keyword limit st = (Ok rs, st') ->
     Z.of_nat (List.length rs) <= limit) /\
  (forall status body data cards,
     up (requests st) (SearchReq keyword) = Reply status (Some body) ->
     py_getitem body "data" = Ok data ->
     py_getitem data "cards" = Ok (JList cards) ->
     (List.length cards < 2)%nat ->
     fst (search_weibo_users int_of_str up keyword limit st) = Ok []).
Proof.
  split.
  - intros Hlimit rs st' H.
    unfold search_weibo_users in H; unfold_py.
    destruct (up (requests st) (SearchReq keyword)) as [|status body|];
      simpl in H; [| |discriminate].
    + inversion H; subst. simpl. exact Hlimit.
    + repeat (break_match; simpl in *; try discriminate);
        repeat match goal with
               | E : (_, _) = (_, _) |- _ => inversion E; clear E; subst
               end;
        try discriminate;
        try (simpl; exact Hlimit);
        try (apply py_slice_to_length; exact Hlimit).
  - intros status body data cards Hup Hdata Hcards Hlen.
    unfold search_weibo_users; unfold_py.
    rewrite Hup. simpl. rewrite Hdata. simpl. rewrite Hcards. simpl.
    destruct (Z.ltb_spec (Z.of_nat (List.length cards)) 2); [reflexivity|lia].
Qed.

Lemma search_returns_at_most_limit_witness :
  let up := constant_upstream
              (Reply 200 (Some (search_body [sample_user 1 "a";
                                             sample_user 2 "b";
                                             sample_user 3 "c"]))) in
  let short := constant_upstream
                 (Reply 200 (Some (JDict [("data"%string,
                    JDict [("cards"%string, JList [JDict []])])]))) in
  let found := [mkSearchResult 1 "a" "https://example.org/a.jpg" "";
                mkSearchResult 2 "b" "https://example.org/a.jpg" ""] in
  0 <= 2 /\
  search_weibo_users (fun _ => None) up "k" 2 st0
    = (Ok found, mkState [SearchReq "k"] []) /\
  Z.of_nat (List.length found) <= 2 /\
  (List.length [JDict []] < 2)%nat /\
  fst (search_weibo_users (fun _ => None) short "k" 2 st0) = Ok [].
Proof.
  intros up short found.
  split; [lia|]. split; [reflexivity|].
  split.
  - apply (proj1 (search_returns_at_most_limit (fun _ => None) up "k" 2 st0)
             ltac:(lia) found (mkState [SearchReq "k"] []) eq_refl).
  - split; [simpl; lia|].
    apply (proj2 (search_returns_at_most_limit (fun _ => None) short "k" 2 st0)
             200
             (JDict [("data"%string, JDict [("cards"%string, JList [JDict []])])])
             (JDict [("cards"%string, JList [JDict []])])
             [JDict []] eq_refl eq_refl eq_refl).
    simpl; lia.
Defined.

(** C5 as stated does not hold for a negative [limit]: [[:limit]] then drops
    entries from the end, so with two users found and [limit = -1] one
    result is returned, which is more than [limit]. *)
Lemma search_negative_limit_returns_results :
  let up := constant_upstream
              (Reply 200 (Some (search_body [sample_user 1 "a";
                                             sample_user 2 "b"]))) in
  exists rs,
    fst (search_weibo_users (fun _ => None) up "k" (-1) st0) = Ok rs /\
    rs = [mkSearchResult 1 "a" "https://example.org/a.jpg" ""] /\
    ~ (Z.of_nat (List.length rs) <= -1).
Proof.
  intros up. eexists. split; [reflexivity|]. split; [reflexivity|].
  simpl. lia.
Qed.

(** ** The error policy *)

(** What the handlers do catch: a request that raises [httpx.HTTPError] is
    logged and answered with the empty value by the profile lookup, by the
    search and by the container-id resolution. *)
Lemma transport_failure_is_caught int_of_str up uid keyword limit st :
  up (requests st) (ProfileReq uid) = TransportFailure ->
  up (requests st) (SearchReq keyword) = TransportFailure ->
  extract_weibo_profile up uid st
    = (Ok (JDict []),
       mkState (requests st ++ [ProfileReq uid]) (logged st ++ [ProfileFailed uid])) /\
  _get_container_id up uid st
    = (Ok JNull,
       mkState (requests st ++ [ProfileReq uid])
               (logged st ++ [ContainerIdFailed uid])) /\
  search_weibo_users int_of_str up keyword limit st
    = (Ok [],
       mkState (requests st ++ [SearchReq keyword])
               (logged st ++ [SearchFailed keyword])).
Proof.
  intros Hp Hs.
  unfold extract_weibo_profile, _get_container_id, search_weibo_users;
    unfold_py.
  rewrite Hp, Hs. repeat split.
Qed.

(** With a [limit] that is not positive the loop body never runs: no page
    is fetched, the container-id request is the only one (sent unless its
    URL was refused), and the result is the empty list whenever that
    resolution returns. *)
Lemma nonpositive_limit_fetches_no_page fuel up uid limit st :
  limit <= 0 ->
  exists r st',
    extract_weibo_feeds (S fuel) up uid limit st = Some (r, st') /\
    requests st' = requests_after up st (ProfileReq uid) /\
    page_fetches (requests st') = page_fetches (requests st) /\
    (r = Ok [] \/
     exists e, r = Raise e /\ fst (_get_container_id up uid st) = Raise e).
Proof.
  intros Hlimit. unfold extract_weibo_feeds.
  pose proof (_get_container_id_requests_after up uid st) as Hreq.
  assert (Hnone : page_fetches (requests_after up st (ProfileReq uid))
                  = page_fetches (requests st)).
  { unfold requests_after.
    destruct (up (requests st) (ProfileReq uid)); try reflexivity;
      rewrite page_fetches_app;
      change (page_fetches [ProfileReq uid]) with 0%nat; lia. }
  destruct (_get_container_id up uid st) as [[cid|e] st'] eqn:Hcid;
    simpl in Hreq.
  - exists (Ok []), st'. rewrite feeds_loop_done by (simpl; lia).
    split; [reflexivity|]. split; [exact Hreq|].
    split; [rewrite Hreq; exact Hnone | left; reflexivity].
  - exists (Raise e), st'. split; [reflexivity|].
    split; [exact Hreq|].
    split; [rewrite Hreq; exact Hnone|].
    right; exists e; split; reflexivity.
Qed.

(** C1: the three public operations are not total.  A body that is not JSON
    makes [extract_weibo_profile] raise [JSONDecodeError]; a JSON object
    without [data] makes [search_weibo_users] raise [KeyError]; and when
    every request fails in transport, [extract_weibo_feeds] with [limit = 1]
    raises [ValidationError], because the handler of [_extract_feeds] builds
    a [PagedFeeds] whose [SinceId] is [None]. *)
Theorem public_operations_can_raise :
  (forall uid status,
     extract_weibo_profile (constant_upstream (Reply status None)) uid st0
       = (Raise JSONDecodeError, mkState [ProfileReq uid] [])) /\
  (forall int_of_str keyword limit status,
     search_weibo_users int_of_str
       (constant_upstream (Reply status (Some (JDict [("ok"%string, JInt 0)]))))
       keyword limit st0
       = (Raise KeyError, mkState [SearchReq keyword] [])) /\
  (forall fuel uid,
     extract_weibo_feeds (S fuel) (constant_upstream TransportFailure) uid 1 st0
       = Some (Raise ValidationError,
               mkState [ProfileReq uid; FeedsReq uid JNull (CStr "")]
                       [ContainerIdFailed uid; FeedsFailed uid])).
Proof.
  split; [|split]; intros; reflexivity.
Qed.

(** C2: a failed page fetch does not give an empty page.  When the request
    raises [httpx.HTTPError] the handler logs and then builds
    [PagedFeeds(SinceId=None, Feeds=[])], which the model rejects:
    [_extract_feeds] raises [ValidationError].  When the body is not JSON,
    [JSONDecodeError] is not caught by the handler at all. *)
Theorem failed_page_fetch_raises uid cid since st :
  _extract_feeds (constant_upstream TransportFailure) uid cid since st
    = (Raise ValidationError,
       mkState (requests st ++ [FeedsReq uid cid since])
               (logged st ++ [FeedsFailed uid])) /\
  (forall status,
     _extract_feeds (constant_upstream (Reply status None)) uid cid since st
       = (Raise JSONDecodeError,
          mkState (requests st ++ [FeedsReq uid cid since]) (logged st))).
Proof.
  split; intros; reflexivity.
Qed.

(** C6: with [limit <= 0] no page is fetched, but the container-id
    resolution that comes first can raise: when the profile endpoint
    answers with a body that is not JSON, [extract_weibo_feeds] raises
    [JSONDecodeError] instead of returning the empty list. *)
Theorem nonpositive_limit_can_raise fuel uid status :
  extract_weibo_feeds (S fuel) (constant_upstream (Reply status None)) uid 0 st0
    = Some (Raise JSONDecodeError, mkState [ProfileReq uid] []).
Proof. reflexivity. Qed.

(** C7: a response without [data.userInfo] does not give the empty map:
    [extract_weibo_profile] raises [KeyError], whether [data] itself is
    missing or only [userInfo] inside it, and nothing is logged. *)
Theorem profile_without_userInfo_raises uid status :
  extract_weibo_profile
    (constant_upstream (Reply status (Some (JDict [("ok"%string, JInt 0)]))))
    uid st0
    = (Raise KeyError, mkState [ProfileReq uid] []) /\
  extract_weibo_profile
    (constant_upstream
       (Reply status (Some (JDict [("data"%string, JDict [])]))))
    uid st0
    = (Raise KeyError, mkState [ProfileReq uid] []).
Proof.
  split; reflexivity.
Qed.

(** ** What escapes the handlers *)

Lemma try_except_no_HTTPError (A : Type) (body handler : M A) :
  (forall st, fst (handler st) <> Raise HTTPError) ->
  forall st, fst (try_except_HTTPError body handler st) <> Raise HTTPError.
Proof.
  intros Hh st. unfold try_except_HTTPError.
  destruct (body st) as [[a|e] st']; [discriminate|].
  destruct e; simpl; try discriminate. apply Hh.
Qed.

Lemma feeds_loop_no_HTTPError up uid cid limit :
  forall fuel feeds since st st',
    feeds_loop fuel up uid cid limit feeds since st
      <> Some (Raise HTTPError, st').
Proof.
  induction fuel as [|fuel IH]; intros feeds since st st'; [discriminate|].
  rewrite feeds_loop_S.
  destruct (Z.of_nat (List.length feeds) <? limit); [|discriminate].
  destruct (_extract_feeds up uid cid since st) as [[page|e] st1] eqn:Hfetch.
  - destruct (Feeds page); [discriminate|].
    destruct (negb (since_truthy (SinceId page))); [discriminate|apply IH].
  - intros H. inversion H; subst.
    apply (try_except_no_HTTPError _
             (response <- client_get up (FeedsReq uid cid since) ;;
              data <- response_json response ;;
              d <- lift (py_get data "data" (JDict [])) ;;
              info <- lift (py_get d "cardlistInfo" (JDict [])) ;;
              new_since_id <- lift (py_get info "since_id" (JStr "")) ;;
              d' <- lift (py_get data "data" (JDict [])) ;;
              cards <- lift (py_get d' "cards" (JList [])) ;;
              if truthy cards
              then lift (PagedFeeds_new new_since_id cards)
              else lift (PagedFeeds_new new_since_id (JList [])))
             (logger_error (FeedsFailed uid) ;;;
              lift (PagedFeeds_new JNull (JList [])))
             ltac:(intros s; discriminate) st).
    fold (_extract_feeds up uid cid since). rewrite Hfetch. reflexivity.
Qed.

(** No operation lets an [httpx.HTTPError] through to its caller: whatever
    the upstream does, the exception raised, if any, is another one. *)
Theorem HTTPError_never_escapes int_of_str up uid keyword cid since limit fuel st :
  fst (extract_weibo_profile up uid st) <> Raise HTTPError /\
  fst (search_weibo_users int_of_str up keyword limit st) <> Raise HTTPError /\
  fst (_get_container_id up uid st) <> Raise HTTPError /\
  fst (_extract_feeds up uid cid since st) <> Raise HTTPError /\
  (forall st', extract_weibo_feeds fuel up uid limit st
                 <> Some (Raise HTTPError, st')).
Proof.
  repeat split;
    try (apply try_except_no_HTTPError; intros s; discriminate).
  intros st'. unfold extract_weibo_feeds.
  destruct (_get_container_id up uid st) as [[c|e] st1] eqn:Hcid.
  - apply feeds_loop_no_HTTPError.
  - intros H. inversion H; subst.
    assert (Hno : fst (_get_container_id up uid st) <> Raise HTTPError)
      by (apply try_except_no_HTTPError; intros s; discriminate).
    rewrite Hcid in Hno. apply Hno. reflexivity.
Qed.

(** Each of the four single-request operations tries exactly one request,
    the one for its own endpoint and arguments: it is sent whatever the
    service answers and whether the operation returns or raises, unless
    httpx refuses its URL, in which case nothing is sent or logged and the
    operation raises [httpx.InvalidURL]. *)
Theorem single_request_operations int_of_str up uid keyword cid since limit st :
  (requests (snd (extract_weibo_profile up uid st))
     = requests_after up st (ProfileReq uid) /\
   requests (snd (search_weibo_users int_of_str up keyword limit st))
     = requests_after up st (SearchReq keyword) /\
   requests (snd (_get_container_id up uid st))
     = requests_after up st (ProfileReq uid) /\
   requests (snd (_extract_feeds up uid cid since st))
     = requests_after up st (FeedsReq uid cid since)) /\
  (up (requests st) (ProfileReq uid) = UrlRejected ->
   extract_weibo_profile up uid st = (Raise InvalidURL, st) /\
   _get_container_id up uid st = (Raise InvalidURL, st)) /\
  (up (requests st) (SearchReq keyword) = UrlRejected ->
   search_weibo_users int_of_str up keyword limit st
     = (Raise InvalidURL, st)) /\
  (up (requests st) (FeedsReq uid cid since) = UrlRejected ->
   _extract_feeds up uid cid since st = (Raise InvalidURL, st)).
Proof.
  split; [split; [|split; [|split]]|split; [|split]].
  - unfold extract_weibo_profile, requests_after; unfold_py.
    destruct (up (requests st) (ProfileReq uid)) as [|status body|];
      [reflexivity| |reflexivity].
    simpl. repeat (break_match; simpl in *; try discriminate);
      split_pairs; reflexivity.
  - unfold search_weibo_users, requests_after; unfold_py.
    destruct (up (requests st) (SearchReq keyword)) as [|status body|];
      [reflexivity| |reflexivity].
    simpl. repeat (break_match; simpl in *; try discriminate);
      split_pairs; reflexivity.
  - apply _get_container_id_requests_after.
  - apply _extract_feeds_requests_after.
  - intros H. split; [|apply _get_container_id_refused; exact H].
    unfold extract_weibo_profile; unfold_py. rewrite H. reflexivity.
  - intros H. unfold search_weibo_users; unfold_py. rewrite H. reflexivity.
  - apply _extract_feeds_refused.
Qed.

Lemma single_request_operations_witness :
  let cursor := CStr (String (ascii_of_nat 10) EmptyString) in
  let up := paged_upstream UrlRejected five_pages in
  up (requests st0) (ProfileReq 7) = UrlRejected /\
  up (requests st0) (SearchReq "k") = UrlRejected /\
  up (requests st0) (FeedsReq 7 JNull cursor) = UrlRejected /\
  requests (snd (_extract_feeds up 7 JNull (CStr "") st0))
    = [FeedsReq 7 JNull (CStr "")] /\
  requests (snd (_extract_feeds up 7 JNull cursor st0)) = [] /\
  extract_weibo_profile up 7 st0 = (Raise InvalidURL, st0) /\
  search_weibo_users (fun _ => None) up "k" 5 st0 = (Raise InvalidURL, st0) /\
  _extract_feeds up 7 JNull cursor st0 = (Raise InvalidURL, st0).
Proof.
  intros cursor up.
  destruct (single_request_operations (fun _ => None) up 7 "k" JNull cursor
              5 st0) as ((_ & _ & _ & Hsent) & Hprofile & Hsearch & Hfeeds).
  destruct (single_request_operations (fun _ => None) up 7 "k" JNull
              (CStr "") 5 st0) as ((_ & _ & _ & Hfirst) & _).
  split; [reflexivity|]. split; [reflexivity|]. split; [reflexivity|].
  split; [exact Hfirst|]. split; [exact Hsent|].
  split; [exact (proj1 (Hprofile eq_refl))|].
  split; [exact (Hsearch eq_refl) | exact (Hfeeds eq_refl)].
Defined.

(** The status of a response is never looked at: two upstreams whose
    replies carry the same body, with whatever statuses, get the same
    result from each single-request operation. *)
Theorem status_is_never_inspected
    int_of_str up up' uid keyword cid since limit st s s' b1 b2 b3 :
  up (requests st) (ProfileReq uid) = Reply s b1 ->
  up' (requests st) (ProfileReq uid) = Reply s' b1 ->
  up (requests st) (SearchReq keyword) = Reply s b2 ->
  up' (requests st) (SearchReq keyword) = Reply s' b2 ->
  up (requests st) (FeedsReq uid cid since) = Reply s b3 ->
  up' (requests st) (FeedsReq uid cid since) = Reply s' b3 ->
  extract_weibo_profile up uid st = extract_weibo_profile up' uid st /\
  search_weibo_users int_of_str up keyword limit st
    = search_weibo_users int_of_str up' keyword limit st /\
  _get_container_id up uid st = _get_container_id up' uid st /\
  _extract_feeds up uid cid since st = _extract_feeds up' uid cid since st.
Proof.
  intros P P' S S' F F'.
  unfold extract_weibo_profile, search_weibo_users, _get_container_id,
    _extract_feeds; unfold_py.
  rewrite P, P', S, S', F, F'. repeat split.
Qed.

Lemma status_is_never_inspected_witness :
  let body := Some (JDict [("ok"%string, JInt 0)]) in
  let up := constant_upstream (Reply 200 body) in
  let up' := constant_upstream (Reply 418 body) in
  up (requests st0) (ProfileReq 7) = Reply 200 body /\
  up' (requests st0) (ProfileReq 7) = Reply 418 body /\
  (extract_weibo_profile up 7 st0 = extract_weibo_profile up' 7 st0 /\
   search_weibo_users (fun _ => None) up "k" 3 st0
     = search_weibo_users (fun _ => None) up' "k" 3 st0 /\
   _get_container_id up 7 st0 = _get_container_id up' 7 st0 /\
   _extract_feeds up 7 JNull (CStr "") st0
     = _extract_feeds up' 7 JNull (CStr "") st0).
Proof.
  intros body up up'.
  split; [reflexivity|]. split; [reflexivity|].
  apply (status_is_never_inspected (fun _ => None) up up' 7 "k" JNull
           (CStr "") 3 st0 200 418 body body body); reflexivity.
Defined.

(** ** Bounds on a traversal *)

Lemma feeds_loop_fetch_bound up uid cid limit :
  forall m feeds since st,
    (Z.to_nat (limit - Z.of_nat (List.length feeds)) <= m)%nat ->
    exists r st',
      feeds_loop (S m) up uid cid limit feeds since st = Some (r, st') /\
      (page_fetches (requests st')
         <= page_fetches (requests st)
            + Z.to_nat (limit - Z.of_nat (List.length feeds)))%nat.
Proof.
  induction m as [|m IH]; intros feeds since st Hm;
    destruct (Z.ltb_spec (Z.of_nat (List.length feeds)) limit) as [Hlt|Hge];
    try lia;
    try (exists (Ok feeds), st; rewrite feeds_loop_done by lia;
         split; [reflexivity | lia]).
  rewrite feeds_loop_S. apply Z.ltb_lt in Hlt. rewrite Hlt.
  apply Z.ltb_lt in Hlt.
  destruct (_extract_feeds up uid cid since st) as [[page|e] st1] eqn:Hfetch.
  all: assert (Hone : (page_fetches (requests st1)
                       <= page_fetches (requests st) + 1)%nat)
         by (destruct (_extract_feeds_sends_at_most_one _ _ _ _ _ _ _ Hfetch)
               as [Hreq|Hreq]; rewrite Hreq;
             [rewrite page_fetches_app;
              change (page_fetches [FeedsReq uid cid since]) with 1%nat|];
             lia).
  - destruct (Feeds page) as [|d ds] eqn:Hf.
    + exists (Ok feeds), st1. split; [reflexivity | lia].
    + destruct (negb (since_truthy (SinceId page))).
      * eexists _, st1. split; [reflexivity | lia].
      * destruct (IH (feeds ++ d :: ds)%list (SinceId page) st1)
          as (r & st' & Hrun & Hbound).
        { rewrite length_app. simpl List.length. lia. }
        exists r, st'. split; [exact Hrun|].
        rewrite length_app in Hbound. simpl List.length in Hbound. lia.
  - exists (Raise e), st1. split; [reflexivity | lia].
Qed.

(** For every upstream and every [limit], [extract_weibo_feeds] comes to an
    end, after at most [limit] page fetches (none when [limit <= 0]). *)
Theorem traversal_ends_within_limit_fetches up uid limit st :
  exists r st',
    extract_weibo_feeds (S (Z.to_nat limit)) up uid limit st = Some (r, st') /\
    (page_fetches (requests st')
       <= page_fetches (requests st) + Z.to_nat limit)%nat.
Proof.
  unfold extract_weibo_feeds.
  destruct (_get_container_id up uid st) as [[cid|e] st1] eqn:Hcid.
  all: assert (Hsame : page_fetches (requests st1) = page_fetches (requests st))
         by (destruct (_get_container_id_sends_at_most_one _ _ _ _ _ Hcid)
               as [Hreq|Hreq]; rewrite Hreq;
             [rewrite page_fetches_app;
              change (page_fetches [ProfileReq uid]) with 0%nat|];
             lia).
  - destruct (feeds_loop_fetch_bound up uid cid limit (Z.to_nat limit) []
                (CStr "") st1) as (r & st' & Hrun & Hbound).
    { simpl. lia. }
    exists r, st'. split; [exact Hrun|].
    simpl List.length in Hbound. rewrite Z.sub_0_r in Hbound. lia.
  - exists (Raise e), st1. split; [reflexivity | lia].
Qed.

Lemma app_one_inv (A : Type) (x last : A) (rest before : list A) :
  (x :: rest = before ++ [last])%list ->
  (before = [] /\ rest = [] /\ last = x) \/
  (exists before', before = x :: before' /\ rest = (before' ++ [last])%list).
Proof.
  destruct before as [|y before']; simpl; intros H; inversion H; subst.
  - left. repeat split.
  - right. exists before'. split; reflexivity.
Qed.

(** What the loop returns is what it was given followed by the entries of
    the pages it fetched, each page whole and in fetch order; every page
    but the last left the loop running, and the last was fetched while
    fewer than [limit] entries were held. *)
Lemma feeds_loop_trace up uid cid limit :
  forall fuel feeds since st r st',
    feeds_loop fuel up uid cid limit feeds since st = Some (Ok r, st') ->
    exists pages,
      served up uid cid since st pages st' /\
      r = (feeds ++ entries_of pages)%list /\
      forall before last,
        pages = (before ++ [last])%list ->
        Forall continues before /\
        Z.of_nat (List.length (feeds ++ entries_of before)%list) < limit.
Proof.
  induction fuel as [|fuel IH]; intros feeds since st r st' H;
    [discriminate|].
  rewrite feeds_loop_S in H.
  destruct (Z.ltb_spec (Z.of_nat (List.length feeds)) limit) as [Hlt|Hge].
  2:{ inversion H; subst. exists []. split; [constructor|].
      split; [symmetry; apply app_nil_r|].
      intros before last Hnil. destruct before; discriminate. }
  destruct (_extract_feeds up uid cid since st) as [[page|e] st1] eqn:Hfetch;
    [|discriminate].
  assert (Hone : forall st2,
            st2 = st1 ->
            served up uid cid since st [page] st2 /\
            forall before last,
              [page] = (before ++ [last])%list ->
              Forall continues before /\
              Z.of_nat (List.length (feeds ++ entries_of before)%list) < limit).
  { intros st2 ->. split.
    - apply (served_page _ _ _ _ _ _ _ _ _ Hfetch). constructor.
    - intros before last Hsplit.
      destruct (app_one_inv _ _ _ _ _ Hsplit)
        as [(-> & _ & _)|(b' & _ & Hnil)].
      + split; [constructor|]. unfold entries_of. simpl.
        rewrite app_nil_r. exact Hlt.
      + destruct b'; discriminate. }
  destruct (Feeds page) as [|d ds] eqn:Hf.
  { inversion H; subst. exists [page]. destruct (Hone st' eq_refl) as [Hs Hb].
    split; [exact Hs|]. split; [|exact Hb].
    unfold entries_of. simpl. rewrite Hf. simpl. symmetry. apply app_nil_r. }
  destruct (since_truthy (SinceId page)) eqn:Htruthy; simpl in H.
  - apply IH in H. destruct H as (pages & Hserved & -> & Hbound).
    exists (page :: pages).
    split; [apply (served_page _ _ _ _ _ _ _ _ _ Hfetch); exact Hserved|].
    split; [rewrite entries_of_cons, Hf, app_assoc; reflexivity|].
    intros before last Hsplit.
    destruct (app_one_inv _ _ _ _ _ Hsplit)
      as [(-> & _ & _)|(b' & -> & Hrest)].
    + split; [constructor|]. unfold entries_of. simpl.
      rewrite app_nil_r. exact Hlt.
    + destruct (Hbound b' last Hrest) as [Hcont Hlen].
      split.
      * constructor; [|exact Hcont].
        split; [rewrite Hf; discriminate | exact Htruthy].
      * rewrite entries_of_cons, Hf, app_assoc. exact Hlen.
  - inversion H; subst. exists [page]. destruct (Hone st' eq_refl) as [Hs Hb].
    split; [exact Hs|]. split; [|exact Hb].
    unfold entries_of. simpl. rewrite Hf, app_nil_r. reflexivity.
Qed.

(** A traversal returns whole fetched pages and overshoots by less than
    the last of them: what [extract_weibo_feeds] returns is the entries of
    the pages its fetches returned, one fetch after the other from the empty
    cursor, each page whole and in order; every page but the last had
    entries and a cursor; and before the last page fewer than [limit]
    entries were held. *)
Theorem traversal_overshoots_by_less_than_a_page fuel up uid limit st r st' :
  extract_weibo_feeds fuel up uid limit st = Some (Ok r, st') ->
  exists cid st1 pages,
    _get_container_id up uid st = (Ok cid, st1) /\
    served up uid cid (CStr "") st1 pages st' /\
    r = entries_of pages /\
    forall before last,
      pages = (before ++ [last])%list ->
      Forall continues before /\
      Z.of_nat (List.length (entries_of before)) < limit /\
      Z.of_nat (List.length r)
        < limit + Z.of_nat (List.length (Feeds last)).
Proof.
  unfold extract_weibo_feeds.
  destruct (_get_container_id up uid st) as [[cid|e] st1]; [|discriminate].
  intros H. apply feeds_loop_trace in H.
  destruct H as (pages & Hserved & -> & Hbound).
  exists cid, st1, pages. split; [reflexivity|]. split; [exact Hserved|].
  split; [reflexivity|].
  intros before last Hsplit.
  destruct (Hbound before last Hsplit) as [Hcont Hlen]. simpl in Hlen.
  split; [exact Hcont|]. split; [exact Hlen|].
  subst pages. simpl. unfold entries_of in *.
  rewrite map_app, concat_app, length_app. simpl.
  rewrite app_nil_r. lia.
Qed.

Lemma traversal_overshoots_by_less_than_a_page_witness :
  let cid := JStr "1076031" in
  let c1 := CStr "4900000000000001" in
  let c2 := CInt 4900000000000002 in
  let r := (sample_page 0 ++ sample_page 10)%list in
  let st3 := mkState [ProfileReq 7; FeedsReq 7 cid (CStr "");
                      FeedsReq 7 cid c1] [] in
  extract_weibo_feeds 3 five_page_upstream 7 12 st0 = Some (Ok r, st3) /\
  exists cid' st1 pages,
    _get_container_id five_page_upstream 7 st0 = (Ok cid', st1) /\
    served five_page_upstream 7 cid' (CStr "") st1 pages st3 /\
    r = entries_of pages /\
    forall before last,
      pages = (before ++ [last])%list ->
      Forall continues before /\
      Z.of_nat (List.length (entries_of before)) < 12 /\
      Z.of_nat (List.length r) < 12 + Z.of_nat (List.length (Feeds last)).
Proof.
  intros cid c1 c2 r st3. split; [reflexivity|].
  apply (traversal_overshoots_by_less_than_a_page 3 five_page_upstream 7 12
           st0 r st3). reflexivity.
Defined.

Lemma feeds_loop_requests_extend up uid cid limit :
  forall fuel feeds since st r st',
    feeds_loop fuel up uid cid limit feeds since st = Some (r, st') ->
    exists more, requests st' = (requests st ++ more)%list.
Proof.
  induction fuel as [|fuel IH]; intros feeds since st r st' H;
    [discriminate|].
  rewrite feeds_loop_S in H.
  destruct (Z.of_nat (List.length feeds) <? limit);
    [|inversion H; exists []; rewrite app_nil_r; reflexivity].
  destruct (_extract_feeds up uid cid since st) as [[page|e] st1] eqn:Hfetch.
  all: assert (Hreq : exists sent, requests st1 = (requests st ++ sent)%list)
         by (destruct (_extract_feeds_sends_at_most_one _ _ _ _ _ _ _ Hfetch)
               as [Hr|Hr]; rewrite Hr;
             [eexists; reflexivity | exists []; rewrite app_nil_r; reflexivity]).
  all: destruct Hreq as [sent Hreq].
  - destruct (Feeds page); [inversion H; subst; eauto|].
    destruct (negb (since_truthy (SinceId page)));
      [inversion H; subst; eauto|].
    apply IH in H. destruct H as [more Hmore].
    exists (sent ++ more)%list.
    rewrite Hmore, Hreq, <- app_assoc. reflexivity.
  - inversion H; subst; eauto.
Qed.

(** The container id is not checked before paging: when the resolution
    returns [cid], even [None], and [limit] is positive, the first page is
    asked for with that container id and the empty cursor.  The request is
    sent right after the profile request, unless httpx refuses its URL; then
    the call raises [httpx.InvalidURL] with the profile request alone
    sent. *)
Theorem first_page_is_requested_whatever_the_container_id
    up uid limit st cid st1 :
  0 < limit ->
  _get_container_id up uid st = (Ok cid, st1) ->
  (up (requests st1) (FeedsReq uid cid (CStr "")) <> UrlRejected ->
   exists r st' more,
     extract_weibo_feeds (S (Z.to_nat limit)) up uid limit st = Some (r, st') /\
     requests st' =
       (requests st ++ ProfileReq uid :: FeedsReq uid cid (CStr "") :: more)%list) /\
  (up (requests st1) (FeedsReq uid cid (CStr "")) = UrlRejected ->
   extract_weibo_feeds (S (Z.to_nat limit)) up uid limit st
     = Some (Raise InvalidURL, st1) /\
   requests st1 = (requests st ++ [ProfileReq uid])%list).
Proof.
  intros Hlimit Hcid.
  pose proof (_get_container_id_requests _ _ _ _ _ Hcid) as Hreq1.
  unfold extract_weibo_feeds. rewrite Hcid. rewrite feeds_loop_S.
  destruct (Z.ltb_spec (Z.of_nat (List.length (@nil pydict))) limit)
    as [_|Hge]; [|simpl in Hge; lia].
  split.
  - intros Hsent.
    pose proof (_extract_feeds_requests_after up uid cid (CStr "") st1) as Hreq2.
    unfold requests_after in Hreq2.
    destruct (_extract_feeds up uid cid (CStr "") st1) as [[page|e] st2]
      eqn:Hfetch; simpl in Hreq2.
    all: assert (Hlog : requests st2 =
                   (requests st ++ ProfileReq uid
                      :: FeedsReq uid cid (CStr "") :: [])%list)
           by (rewrite Hreq2, Hreq1, <- app_assoc;
               destruct (up (requests st ++ [ProfileReq uid])%list
                           (FeedsReq uid cid (CStr ""))) eqn:E;
               try reflexivity; rewrite Hreq1 in Hsent; contradiction).
    + destruct (Feeds page) as [|d ds] eqn:Hf;
        [exists (Ok []), st2, []; split; [reflexivity | exact Hlog]|].
      destruct (negb (since_truthy (SinceId page)));
        [eexists _, st2, []; split; [reflexivity | exact Hlog]|].
      destruct (feeds_loop_terminates up uid cid limit (Z.to_nat limit - 1)
                  ([] ++ d :: ds)%list (SinceId page) st2) as [[r st'] Hrun].
      { simpl List.length. lia. }
      assert (Hfuel : feeds_loop (Z.to_nat limit) up uid cid limit
                        ([] ++ d :: ds)%list (SinceId page) st2
                      = Some (r, st')).
      { apply (feeds_loop_more_fuel _ _ _ _ _ _ _ _ _ _ Hrun). lia. }
      rewrite Hfuel.
      destruct (feeds_loop_requests_extend _ _ _ _ _ _ _ _ _ _ Hfuel)
        as [more Hmore].
      exists r, st', more. split; [reflexivity|].
      rewrite Hmore, Hlog, <- app_assoc. reflexivity.
    + exists (Raise e), st2, []. split; [reflexivity | exact Hlog].
  - intros Hrefused.
    rewrite (_extract_feeds_refused _ _ _ _ _ Hrefused).
    split; [reflexivity | exact Hreq1].
Qed.

Lemma first_page_is_requested_whatever_the_container_id_witness :
  let up := constant_upstream TransportFailure in
  let st1 := mkState [ProfileReq 7] [ContainerIdFailed 7] in
  let newline := JStr (String (ascii_of_nat 10) EmptyString) in
  let up' := paged_upstream
               (Reply 200 (Some (profile_body "weibo"
                                   (String (ascii_of_nat 10) EmptyString))))
               five_pages in
  0 < 1 /\
  _get_container_id up 7 st0 = (Ok JNull, st1) /\
  up (requests st1) (FeedsReq 7 JNull (CStr "")) <> UrlRejected /\
  (exists r st' more,
     extract_weibo_feeds (S (Z.to_nat 1)) up 7 1 st0 = Some (r, st') /\
     requests st' =
       (requests st0 ++ ProfileReq 7 :: FeedsReq 7 JNull (CStr "") :: more)%list) /\
  _get_container_id up' 7 st0 = (Ok newline, mkState [ProfileReq 7] []) /\
  up' [ProfileReq 7] (FeedsReq 7 newline (CStr "")) = UrlRejected /\
  extract_weibo_feeds (S (Z.to_nat 1)) up' 7 1 st0
    = Some (Raise InvalidURL, mkState [ProfileReq 7] []).
Proof.
  intros up st1 newline up'.
  split; [lia|]. split; [reflexivity|]. split; [discriminate|].
  split.
  - apply (proj1 (first_page_is_requested_whatever_the_container_id up 7 1 st0
                    JNull st1 ltac:(lia) eq_refl)).
    discriminate.
  - split; [reflexivity|]. split; [reflexivity|].
    apply (proj1 (proj2 (first_page_is_requested_whatever_the_container_id
                           up' 7 1 st0 newline (mkState [ProfileReq 7] [])
                           ltac:(lia) eq_refl) eq_refl)).
Defined.

(** ** Profile lookup and container-id resolution *)

(** [extract_weibo_profile] hands back [data.userInfo] as it is, whatever
    kind of value it is, and logs nothing. *)
Theorem profile_returns_userInfo_unchanged up uid st status body data info :
  up (requests st) (ProfileReq uid) = Reply status (Some body) ->
  py_getitem body "data" = Ok data ->
  py_getitem data "userInfo" = Ok info ->
  extract_weibo_profile up uid st
    = (Ok info, mkState (requests st ++ [ProfileReq uid]) (logged st)).
Proof.
  intros Hup Hdata Hinfo. unfold extract_weibo_profile; unfold_py.
  rewrite Hup. simpl. rewrite Hdata. simpl. rewrite Hinfo. reflexivity.
Qed.

Lemma profile_returns_userInfo_unchanged_witness :
  let data := JDict [("userInfo"%string, JNull)] in
  let body := JDict [("ok"%string, JInt 1); ("data"%string, data)] in
  let up := constant_upstream (Reply 200 (Some body)) in
  up (requests st0) (ProfileReq 7) = Reply 200 (Some body) /\
  py_getitem body "data" = Ok data /\
  py_getitem data "userInfo" = Ok JNull /\
  extract_weibo_profile up 7 st0
    = (Ok JNull, mkState (requests st0 ++ [ProfileReq 7]) (logged st0)).
Proof.
  intros data body up.
  split; [reflexivity|]. split; [reflexivity|]. split; [reflexivity|].
  apply (profile_returns_userInfo_unchanged up 7 st0 200 body data JNull);
    reflexivity.
Defined.

Lemma find_weibo_tab_skips (before : list json) (rest : list json) :
  Forall other_tab before ->
  find_weibo_tab (before ++ rest) = find_weibo_tab rest.
Proof.
  induction 1 as [|tab before [Hdict Hkey] _ IH]; [reflexivity|].
  simpl. destruct tab; try discriminate.
  unfold is_weibo_tab in Hkey. simpl in *. rewrite Hkey. exact IH.
Qed.

Lemma find_weibo_tab_no_HTTPError (tabs : list json) :
  find_weibo_tab tabs <> Raise HTTPError.
Proof.
  induction tabs as [|x l IH]; simpl; [discriminate|].
  destruct x; simpl; try discriminate.
  destruct (py_eq_str _ _); [|exact IH].
  destruct (lookup "containerid" kv); discriminate.
Qed.

(** What [_get_container_id] does with the tab list found under
    [data.tabsInfo.tabs]. *)
Lemma _get_container_id_tabs up uid st status body d t tabs :
  up (requests st) (ProfileReq uid) = Reply status (Some body) ->
  py_get body "data" (JDict []) = Ok d ->
  py_get d "tabsInfo" (JDict []) = Ok t ->
  py_get t "tabs" (JList []) = Ok (JList tabs) ->
  _get_container_id up uid st
    = (find_weibo_tab tabs,
       mkState (requests st ++ [ProfileReq uid]) (logged st)).
Proof.
  intros Hup Hd Ht Htabs. unfold _get_container_id; unfold_py.
  rewrite Hup. simpl. rewrite Hd. simpl. rewrite Ht. simpl.
  rewrite Htabs. simpl.
  pose proof (find_weibo_tab_no_HTTPError tabs) as Hno.
  destruct (find_weibo_tab tabs) as [v|e]; [reflexivity|].
  destruct e; try reflexivity. contradiction Hno. reflexivity.
Qed.

(** The container id is the [containerid] of the first tab whose [tabKey]
    is ["weibo"] ([None] when that tab has none); tabs after it, whatever
    they are, are not looked at. *)
Theorem container_id_of_first_weibo_tab
    up uid st status body d t before kv after :
  up (requests st) (ProfileReq uid) = Reply status (Some body) ->
  py_get body "data" (JDict []) = Ok d ->
  py_get d "tabsInfo" (JDict []) = Ok t ->
  py_get t "tabs" (JList []) = Ok (JList (before ++ JDict kv :: after)) ->
  Forall other_tab before ->
  lookup "tabKey" kv = Some (JStr "weibo") ->
  _get_container_id up uid st
    = (Ok (match lookup "containerid" kv with Some v => v | None => JNull end),
       mkState (requests st ++ [ProfileReq uid]) (logged st)).
Proof.
  intros Hup Hd Ht Htabs Hbefore Hkey.
  rewrite (_get_container_id_tabs _ _ _ _ _ _ _ _ Hup Hd Ht Htabs).
  rewrite (find_weibo_tab_skips _ _ Hbefore).
  simpl. rewrite Hkey. reflexivity.
Qed.

Lemma container_id_of_first_weibo_tab_witness :
  let home := JDict [("tabKey"%string, JStr "profile");
                     ("containerid"%string, JStr "2302831")] in
  let first := [("tabKey"%string, JStr "weibo");
                ("containerid"%string, JStr "1076031")] in
  let second := JDict [("tabKey"%string, JStr "weibo");
                       ("containerid"%string, JStr "9999999")] in
  let t := JDict [("tabs"%string, JList [home; JDict first; second; JNull])] in
  let d := JDict [("tabsInfo"%string, t)] in
  let body := JDict [("data"%string, d)] in
  let up := constant_upstream (Reply 200 (Some body)) in
  Forall other_tab [home] /\
  lookup "tabKey" first = Some (JStr "weibo") /\
  _get_container_id up 7 st0
    = (Ok (JStr "1076031"), mkState [ProfileReq 7] []).
Proof.
  intros home first second t d body up.
  assert (Hother : Forall other_tab [home])
    by (constructor; [split; reflexivity | constructor]).
  split; [exact Hother|]. split; [reflexivity|].
  apply (container_id_of_first_weibo_tab up 7 st0 200 body d t [home] first
           [second; JNull]); try reflexivity. exact Hother.
Defined.

(** Without a tab whose [tabKey] is ["weibo"] the loop over the tabs runs
    off its end: [_get_container_id] returns [None] and logs nothing. *)
Theorem container_id_absent_without_weibo_tab up uid st status body d t tabs :
  up (requests st) (ProfileReq uid) = Reply status (Some body) ->
  py_get body "data" (JDict []) = Ok d ->
  py_get d "tabsInfo" (JDict []) = Ok t ->
  py_get t "tabs" (JList []) = Ok (JList tabs) ->
  Forall other_tab tabs ->
  _get_container_id up uid st
    = (Ok JNull, mkState (requests st ++ [ProfileReq uid]) (logged st)).
Proof.
  intros Hup Hd Ht Htabs Hall.
  rewrite (_get_container_id_tabs _ _ _ _ _ _ _ _ Hup Hd Ht Htabs).
  rewrite <- (app_nil_r tabs), (find_weibo_tab_skips _ _ Hall).
  reflexivity.
Qed.

Lemma container_id_absent_without_weibo_tab_witness :
  let tabs := [JDict [("tabKey"%string, JStr "profile")];
               JDict [("title"%string, JStr "album")]] in
  let t := JDict [("tabs"%string, JList tabs)] in
  let d := JDict [("tabsInfo"%string, t)] in
  let body := JDict [("data"%string, d)] in
  let up := constant_upstream (Reply 200 (Some body)) in
  Forall other_tab tabs /\
  _get_container_id up 7 st0 = (Ok JNull, mkState [ProfileReq 7] []).
Proof.
  intros tabs t d body up.
  assert (Hall : Forall other_tab tabs)
    by (repeat constructor).
  split; [exact Hall|].
  apply (container_id_absent_without_weibo_tab up 7 st0 200 body d t tabs);
    try reflexivity. exact Hall.
Defined.

(** A tab that is not a dict, met before any ["weibo"] tab, makes the
    resolution raise [AttributeError]: the loop calls [tab.get] on it. *)
Theorem container_id_raises_on_non_dict_tab
    up uid st status body d t before bad after :
  up (requests st) (ProfileReq uid) = Reply status (Some body) ->
  py_get body "data" (JDict []) = Ok d ->
  py_get d "tabsInfo" (JDict []) = Ok t ->
  py_get t "tabs" (JList []) = Ok (JList (before ++ bad :: after)) ->
  Forall other_tab before ->
  is_dict bad = false ->
  _get_container_id up uid st
    = (Raise AttributeError,
       mkState (requests st ++ [ProfileReq uid]) (logged st)).
Proof.
  intros Hup Hd Ht Htabs Hbefore Hbad.
  rewrite (_get_container_id_tabs _ _ _ _ _ _ _ _ Hup Hd Ht Htabs).
  rewrite (find_weibo_tab_skips _ _ Hbefore).
  destruct bad; try discriminate; reflexivity.
Qed.

Lemma container_id_raises_on_non_dict_tab_witness :
  let weibo := JDict [("tabKey"%string, JStr "weibo");
                      ("containerid"%string, JStr "1076031")] in
  let t := JDict [("tabs"%string, JList [JNull; weibo])] in
  let d := JDict [("tabsInfo"%string, t)] in
  let body := JDict [("data"%string, d)] in
  let up := constant_upstream (Reply 200 (Some body)) in
  Forall other_tab [] /\
  is_dict JNull = false /\
  _get_container_id up 7 st0 = (Raise AttributeError, mkState [ProfileReq 7] []).
Proof.
  intros weibo t d body up.
  split; [constructor|]. split; [reflexivity|].
  apply (container_id_raises_on_non_dict_tab up 7 st0 200 body d t []
           JNull [weibo]); try reflexivity. constructor.
Defined.

(** ** One page fetch *)

(** A JSON object without [data] is read through the defaults of the
    [.get] chain: the container id is [None], and the page has no entries
    and the empty string as cursor.  Nothing is logged. *)
Theorem missing_data_reads_as_defaults up uid cid since st s1 s2 kv1 kv2 :
  up (requests st) (ProfileReq uid) = Reply s1 (Some (JDict kv1)) ->
  lookup "data" kv1 = None ->
  up (requests st) (FeedsReq uid cid since) = Reply s2 (Some (JDict kv2)) ->
  lookup "data" kv2 = None ->
  _get_container_id up uid st
    = (Ok JNull, mkState (requests st ++ [ProfileReq uid]) (logged st)) /\
  _extract_feeds up uid cid since st
    = (Ok (mkPagedFeeds (CStr "") []),
       mkState (requests st ++ [FeedsReq uid cid since]) (logged st)).
Proof.
  intros H1 L1 H2 L2. unfold _get_container_id, _extract_feeds; unfold_py.
  rewrite H1, H2. simpl. rewrite L1, L2. split; reflexivity.
Qed.

Lemma missing_data_reads_as_defaults_witness :
  let kv := [("ok"%string, JInt 0); ("msg"%string, JStr "no such user")] in
  let up := constant_upstream (Reply 200 (Some (JDict kv))) in
  lookup "data" kv = None /\
  _get_container_id up 7 st0 = (Ok JNull, mkState [ProfileReq 7] []) /\
  _extract_feeds up 7 JNull (CStr "") st0
    = (Ok (mkPagedFeeds (CStr "") []),
       mkState [FeedsReq 7 JNull (CStr "")] []).
Proof.
  intros kv up. split; [reflexivity|].
  apply (missing_data_reads_as_defaults up 7 JNull (CStr "") st0 200 200 kv kv);
    reflexivity.
Defined.

(** What [_extract_feeds] does with the cursor and the cards found in the
    envelope. *)
Lemma _extract_feeds_envelope up uid cid since st status body d info s cards :
  up (requests st) (FeedsReq uid cid since) = Reply status (Some body) ->
  py_get body "data" (JDict []) = Ok d ->
  py_get d "cardlistInfo" (JDict []) = Ok info ->
  py_get info "since_id" (JStr "") = Ok s ->
  py_get d "cards" (JList []) = Ok cards ->
  _extract_feeds up uid cid since st
    = (PagedFeeds_new s (if truthy cards then cards else JList []),
       mkState (requests st ++ [FeedsReq uid cid since]) (logged st)).
Proof.
  intros Hup Hd Hinfo Hs Hcards. unfold _extract_feeds; unfold_py.
  rewrite Hup. simpl. rewrite Hd. simpl. rewrite Hinfo. simpl.
  rewrite Hs. simpl. rewrite Hcards. simpl.
  assert (Hno : forall f, PagedFeeds_new s f <> Raise HTTPError).
  { intros f. unfold PagedFeeds_new.
    destruct (validate_int_or_str s); [|discriminate].
    destruct (validate_list_of_dict f); discriminate. }
  destruct (truthy cards);
    [specialize (Hno cards) | specialize (Hno (JList []))];
    destruct (PagedFeeds_new s _) as [p|e]; try reflexivity;
    destruct e; try reflexivity; contradiction Hno; reflexivity.
Qed.

(** A [cards] value that counts as false ([None], [0], the empty string, an
    empty dict, an empty list) is replaced by the empty list: the page has
    no entries, and keeps the cursor that came with it. *)
Theorem falsy_cards_give_an_empty_page
    up uid cid since st status body d info s c cards :
  up (requests st) (FeedsReq uid cid since) = Reply status (Some body) ->
  py_get body "data" (JDict []) = Ok d ->
  py_get d "cardlistInfo" (JDict []) = Ok info ->
  py_get info "since_id" (JStr "") = Ok s ->
  validate_int_or_str s = Ok c ->
  py_get d "cards" (JList []) = Ok cards ->
  truthy cards = false ->
  _extract_feeds up uid cid since st
    = (Ok (mkPagedFeeds c []),
       mkState (requests st ++ [FeedsReq uid cid since]) (logged st)).
Proof.
  intros Hup Hd Hinfo Hs Hc Hcards Hfalsy.
  rewrite (_extract_feeds_envelope _ _ _ _ _ _ _ _ _ _ _
             Hup Hd Hinfo Hs Hcards).
  rewrite Hfalsy. unfold PagedFeeds_new. rewrite Hc. reflexivity.
Qed.

Lemma falsy_cards_give_an_empty_page_witness :
  let info := JDict [("since_id"%string, JInt 4900000000000001)] in
  let d := JDict [("cardlistInfo"%string, info); ("cards"%string, JNull)] in
  let body := JDict [("data"%string, d)] in
  let up := constant_upstream (Reply 200 (Some body)) in
  validate_int_or_str (JInt 4900000000000001) = Ok (CInt 4900000000000001) /\
  py_get d "cards" (JList []) = Ok JNull /\
  truthy JNull = false /\
  _extract_feeds up 7 (JStr "1076031") (CStr "") st0
    = (Ok (mkPagedFeeds (CInt 4900000000000001) []),
       mkState [FeedsReq 7 (JStr "1076031") (CStr "")] []).
Proof.
  intros info d body up.
  split; [reflexivity|]. split; [reflexivity|]. split; [reflexivity|].
  apply (falsy_cards_give_an_empty_page up 7 (JStr "1076031") (CStr "") st0
           200 body d info (JInt 4900000000000001) (CInt 4900000000000001)
           JNull); reflexivity.
Defined.

(** A list of dict cards goes into the page as it is, entry for entry and
    in order, together with the cursor of the envelope. *)
Theorem page_entries_pass_through
    up uid cid since st status body d info c entries :
  up (requests st) (FeedsReq uid cid since) = Reply status (Some body) ->
  py_get body "data" (JDict []) = Ok d ->
  py_get d "cardlistInfo" (JDict []) = Ok info ->
  py_get info "since_id" (JStr "") = Ok (json_of_since c) ->
  py_get d "cards" (JList []) = Ok (JList (map JDict entries)) ->
  _extract_feeds up uid cid since st
    = (Ok (mkPagedFeeds c entries),
       mkState (requests st ++ [FeedsReq uid cid since]) (logged st)).
Proof.
  intros Hup Hd Hinfo Hs Hcards.
  rewrite (_extract_feeds_envelope _ _ _ _ _ _ _ _ _ _ _
             Hup Hd Hinfo Hs Hcards).
  pose proof (validate_dicts_map_JDict entries) as Hvalid.
  unfold PagedFeeds_new.
  replace (validate_int_or_str (json_of_since c)) with (Ok c)
    by (destruct c; reflexivity).
  destruct entries as [|e es]; [reflexivity|].
  change (truthy (JList (map JDict (e :: es)))) with true.
  cbv beta iota. unfold validate_list_of_dict. rewrite Hvalid. reflexivity.
Qed.

Lemma page_entries_pass_through_witness :
  let entries := [sample_entry 3; sample_entry 1; sample_entry 2] in
  let info := JDict [("since_id"%string, JStr "4900000000000001")] in
  let d := JDict [("cards"%string, JList (map JDict entries));
                  ("cardlistInfo"%string, info);
                  ("scheme"%string, JStr "sinaweibo://cardlist")] in
  let body := JDict [("ok"%string, JInt 1); ("data"%string, d)] in
  let up := constant_upstream (Reply 200 (Some body)) in
  py_get d "cards" (JList []) = Ok (JList (map JDict entries)) /\
  _extract_feeds up 7 (JStr "1076031") (CStr "") st0
    = (Ok (mkPagedFeeds (CStr "4900000000000001") entries),
       mkState [FeedsReq 7 (JStr "1076031") (CStr "")] []).
Proof.
  intros entries info d body up. split; [reflexivity|].
  apply (page_entries_pass_through up 7 (JStr "1076031") (CStr "") st0 200
           body d info (CStr "4900000000000001") entries); reflexivity.
Defined.

Lemma validate_dicts_Ok (l : list json) :
  forall ds, validate_dicts l = Ok ds -> l = map JDict ds.
Proof.
  induction l as [|x l IH]; simpl; intros ds H.
  - inversion H; reflexivity.
  - destruct x; try discriminate.
    destruct (validate_dicts l) as [ds'|e]; [|discriminate].
    inversion H; subst. simpl. rewrite (IH ds' eq_refl). reflexivity.
Qed.

(** A [cards] value that counts as true and is not a list of dicts is
    refused by [PagedFeeds]: [_extract_feeds] raises [ValidationError], and
    the handler, which only catches [httpx.HTTPError], logs nothing. *)
Theorem cards_that_are_not_dicts_are_refused
    up uid cid since st status body d info s cards :
  up (requests st) (FeedsReq uid cid since) = Reply status (Some body) ->
  py_get body "data" (JDict []) = Ok d ->
  py_get d "cardlistInfo" (JDict []) = Ok info ->
  py_get info "since_id" (JStr "") = Ok s ->
  py_get d "cards" (JList []) = Ok cards ->
  truthy cards = true ->
  (forall entries, cards <> JList (map JDict entries)) ->
  _extract_feeds up uid cid since st
    = (Raise ValidationError,
       mkState (requests st ++ [FeedsReq uid cid since]) (logged st)).
Proof.
  intros Hup Hd Hinfo Hs Hcards Htruthy Hnot.
  rewrite (_extract_feeds_envelope _ _ _ _ _ _ _ _ _ _ _
             Hup Hd Hinfo Hs Hcards).
  rewrite Htruthy. unfold PagedFeeds_new.
  destruct (validate_int_or_str s); [|reflexivity].
  destruct (validate_list_of_dict cards) as [ds|e] eqn:Hv; [|reflexivity].
  exfalso. apply (Hnot ds).
  destruct cards; try discriminate.
  simpl in Hv. rewrite (validate_dicts_Ok _ _ Hv). reflexivity.
Qed.

Lemma cards_that_are_not_dicts_are_refused_witness :
  let cards := JList [JDict (sample_entry 1); JStr "ad"] in
  let d := JDict [("cards"%string, cards)] in
  let body := JDict [("data"%string, d)] in
  let up := constant_upstream (Reply 200 (Some body)) in
  truthy cards = true /\
  (forall entries, cards <> JList (map JDict entries)) /\
  _extract_feeds up 7 (JStr "1076031") (CStr "") st0
    = (Raise ValidationError,
       mkState [FeedsReq 7 (JStr "1076031") (CStr "")] []).
Proof.
  intros cards d body up.
  assert (Hnot : forall entries, cards <> JList (map JDict entries)).
  { intros [|e1 [|e2 es]]; discriminate. }
  split; [reflexivity|]. split; [exact Hnot|].
  apply (cards_that_are_not_dicts_are_refused up 7 (JStr "1076031") (CStr "")
           st0 200 body d (JDict []) (JStr "") cards); try reflexivity.
  exact Hnot.
Defined.

(** ** Shaping search results *)

(** [_to_search_result] reads the four keys and nothing else: other keys of
    the user record are ignored, and [screen_name] and [avatar_hd] become
    [nickName] and [avatarHD]. *)
Theorem to_search_result_reads_four_keys int_of_str kv i n a d :
  lookup "id" kv = Some (JInt i) ->
  lookup "screen_name" kv = Some (JStr n) ->
  lookup "avatar_hd" kv = Some (JStr a) ->
  lookup "description" kv = Some (JStr d) ->
  _to_search_result int_of_str (JDict kv) = Ok (mkSearchResult i n a d).
Proof.
  intros Hi Hn Ha Hd. unfold _to_search_result, py_getitem.
  rewrite Hi, Hn, Ha, Hd. reflexivity.
Qed.

Lemma to_search_result_reads_four_keys_witness :
  let kv := [("followers_count"%string, JInt 12);
             ("description"%string, JStr "hello");
             ("id"%string, JInt 1669879400);
             ("avatar_hd"%string, JStr "https://example.org/a.jpg");
             ("verified"%string, JBool true);
             ("screen_name"%string, JStr "someone")] in
  lookup "id" kv = Some (JInt 1669879400) /\
  _to_search_result (fun _ => None) (JDict kv)
    = Ok (mkSearchResult 1669879400 "someone" "https://example.org/a.jpg"
            "hello").
Proof.
  intros kv. split; [reflexivity|].
  apply (to_search_result_reads_four_keys (fun _ => None) kv 1669879400
           "someone" "https://example.org/a.jpg" "hello"); reflexivity.
Defined.

(** A user record that lacks one of the four keys makes
    [_to_search_result] raise [KeyError], whatever the other keys hold. *)
Theorem to_search_result_missing_key int_of_str kv :
  lookup "id" kv = None \/ lookup "screen_name" kv = None \/
  lookup "avatar_hd" kv = None \/ lookup "description" kv = None ->
  _to_search_result int_of_str (JDict kv) = Raise KeyError.
Proof.
  intros H. unfold _to_search_result, py_getitem.
  destruct (lookup "id" kv); [|reflexivity].
  destruct (lookup "screen_name" kv); [|reflexivity].
  destruct (lookup "avatar_hd" kv); [|reflexivity].
  destruct (lookup "description" kv); [|reflexivity].
  destruct H as [H|[H|[H|H]]]; discriminate.
Qed.

Lemma to_search_result_missing_key_witness :
  let kv := [("id"%string, JInt 1669879400);
             ("screen_name"%string, JStr "someone");
             ("avatar_hd"%string, JStr "https://example.org/a.jpg")] in
  lookup "description" kv = None /\
  _to_search_result (fun _ => None) (JDict kv) = Raise KeyError.
Proof.
  intros kv. split; [reflexivity|].
  apply (to_search_result_missing_key (fun _ => None) kv).
  right; right; right; reflexivity.
Defined.

Lemma search_results_user_items int_of_str (users : list SearchResult) :
  search_results int_of_str (map user_item users) = Ok users.
Proof.
  induction users as [|r rs IH]; [reflexivity|].
  destruct r as [i n a d].
  change (map user_item (mkSearchResult i n a d :: rs))
    with (user_item (mkSearchResult i n a d) :: map user_item rs).
  cbn [search_results]. rewrite IH. reflexivity.
Qed.

Lemma search_results_bad_item int_of_str users bad more e :
  py_getitem bad "user" = Raise e ->
  search_results int_of_str (map user_item users ++ bad :: more) = Raise e.
Proof.
  intros Hbad. induction users as [|r rs IH].
  - simpl. rewrite Hbad. reflexivity.
  - destruct r as [i n a d].
    change (map user_item (mkSearchResult i n a d :: rs) ++ bad :: more)%list
      with (user_item (mkSearchResult i n a d)
              :: (map user_item rs ++ bad :: more))%list.
    cbn [search_results]. rewrite IH. reflexivity.
Qed.

(** What [search_weibo_users] does once the second card and its group are
    found: the first card, and any card after the second, play no part. *)
Lemma search_weibo_users_group
    int_of_str up keyword limit st status body data first card others items :
  up (requests st) (SearchReq keyword) = Reply status (Some body) ->
  py_getitem body "data" = Ok data ->
  py_getitem data "cards" = Ok (JList (first :: card :: others)) ->
  py_getitem card "card_group" = Ok (JList items) ->
  search_weibo_users int_of_str up keyword limit st
    = (match search_results int_of_str items with
       | Ok rs => Ok (py_slice_to rs limit)
       | Raise e => Raise e
       end,
       mkState (requests st ++ [SearchReq keyword]) (logged st)) \/
  search_results int_of_str items = Raise HTTPError.
Proof.
  intros Hup Hdata Hcards Hgroup. unfold search_weibo_users; unfold_py.
  rewrite Hup. simpl. rewrite Hdata. simpl. rewrite Hcards.
  cbn [py_len py_index1 nth_error].
  destruct (Z.ltb_spec (Z.of_nat (List.length (first :: card :: others))) 2)
    as [Hlt|_]; [simpl List.length in Hlt; lia|].
  rewrite Hgroup. cbn [py_iter].
  destruct (search_results int_of_str items) as [rs|e];
    [left; reflexivity|].
  destruct e; try (left; reflexivity). right; reflexivity.
Qed.

(** With a [limit] that is not negative, the users of the second card's
    group come back as [SearchResult]s in upstream order, cut to the first
    [limit]; the first card and the cards after the second are ignored. *)
Theorem search_returns_first_users_in_order
    int_of_str up keyword limit st status body data first card others users :
  up (requests st) (SearchReq keyword) = Reply status (Some body) ->
  py_getitem body "data" = Ok data ->
  py_getitem data "cards" = Ok (JList (first :: card :: others)) ->
  py_getitem card "card_group" = Ok (JList (map user_item users)) ->
  0 <= limit ->
  search_weibo_users int_of_str up keyword limit st
    = (Ok (firstn (Z.to_nat limit) users),
       mkState (requests st ++ [SearchReq keyword]) (logged st)).
Proof.
  intros Hup Hdata Hcards Hgroup Hlimit.
  destruct (search_weibo_users_group int_of_str _ _ limit _ _ _ _ _ _ _ _
              Hup Hdata Hcards Hgroup) as [H|H];
    rewrite search_results_user_items in H; [|discriminate].
  rewrite H. unfold py_slice_to.
  destruct (Z.leb_spec 0 limit); [reflexivity | lia].
Qed.

(** With a negative [limit] the slice drops the last [-limit] users
    instead of bounding the result. *)
Theorem search_negative_limit_drops_last_users
    int_of_str up keyword limit st status body data first card others users :
  up (requests st) (SearchReq keyword) = Reply status (Some body) ->
  py_getitem body "data" = Ok data ->
  py_getitem data "cards" = Ok (JList (first :: card :: others)) ->
  py_getitem card "card_group" = Ok (JList (map user_item users)) ->
  limit < 0 ->
  search_weibo_users int_of_str up keyword limit st
    = (Ok (firstn (List.length users - Z.to_nat (- limit)) users),
       mkState (requests st ++ [SearchReq keyword]) (logged st)).
Proof.
  intros Hup Hdata Hcards Hgroup Hlimit.
  destruct (search_weibo_users_group int_of_str _ _ limit _ _ _ _ _ _ _ _
              Hup Hdata Hcards Hgroup) as [H|H];
    rewrite search_results_user_items in H; [|discriminate].
  rewrite H. unfold py_slice_to.
  destruct (Z.leb_spec 0 limit); [lia|].
  replace (Z.to_nat (Z.of_nat (List.length users) + limit))
    with (List.length users - Z.to_nat (- limit))%nat by lia.
  reflexivity.
Qed.

(** Every item of the group is converted before the slice is taken: one
    item without a usable [user], anywhere in the group, makes the whole
    search raise, for every [limit], even one that would have cut it off. *)
Theorem search_fails_on_any_bad_item
    int_of_str up keyword limit st status body data first card others
    users bad more e :
  up (requests st) (SearchReq keyword) = Reply status (Some body) ->
  py_getitem body "data" = Ok data ->
  py_getitem data "cards" = Ok (JList (first :: card :: others)) ->
  py_getitem card "card_group"
    = Ok (JList (map user_item users ++ bad :: more)) ->
  py_getitem bad "user" = Raise e ->
  search_weibo_users int_of_str up keyword limit st
    = (Raise e, mkState (requests st ++ [SearchReq keyword]) (logged st)).
Proof.
  intros Hup Hdata Hcards Hgroup Hbad.
  assert (He : e = KeyError \/ e = TypeError).
  { destruct bad; simpl in Hbad; inversion Hbad; auto.
    destruct (lookup "user" kv); inversion Hbad; auto. }
  destruct (search_weibo_users_group int_of_str _ _ limit _ _ _ _ _ _ _ _
              Hup Hdata Hcards Hgroup) as [H|H];
    rewrite (search_results_bad_item _ _ _ _ _ Hbad) in H.
  - exact H.
  - destruct He; subst; discriminate.
Qed.

Lemma search_returns_first_users_in_order_witness :
  let users := [mkSearchResult 3 "c" "https://example.org/c.jpg" "third";
                mkSearchResult 1 "a" "https://example.org/a.jpg" "first";
                mkSearchResult 2 "b" "https://example.org/b.jpg" ""] in
  let up := constant_upstream
              (Reply 200 (Some (search_body (map user_item users)))) in
  0 <= 2 /\
  search_weibo_users (fun _ => None) up "k" 2 st0
    = (Ok [mkSearchResult 3 "c" "https://example.org/c.jpg" "third";
           mkSearchResult 1 "a" "https://example.org/a.jpg" "first"],
       mkState [SearchReq "k"] []).
Proof.
  intros users up. split; [lia|].
  apply (search_returns_first_users_in_order (fun _ => None) up "k" 2 st0 200
           (search_body (map user_item users))
           (JDict [("cards"%string,
                    JList [JDict [("card_type"%string, JInt 11)];
                           JDict [("card_group"%string,
                                   JList (map user_item users))]])])
           (JDict [("card_type"%string, JInt 11)])
           (JDict [("card_group"%string, JList (map user_item users))])
           [] users); try reflexivity; lia.
Defined.

Lemma search_negative_limit_drops_last_users_witness :
  let users := [mkSearchResult 3 "c" "https://example.org/c.jpg" "third";
                mkSearchResult 1 "a" "https://example.org/a.jpg" "first";
                mkSearchResult 2 "b" "https://example.org/b.jpg" ""] in
  let up := constant_upstream
              (Reply 200 (Some (search_body (map user_item users)))) in
  -1 < 0 /\
  search_weibo_users (fun _ => None) up "k" (-1) st0
    = (Ok [mkSearchResult 3 "c" "https://example.org/c.jpg" "third";
           mkSearchResult 1 "a" "https://example.org/a.jpg" "first"],
       mkState [SearchReq "k"] []).
Proof.
  intros users up. split; [lia|].
  apply (search_negative_limit_drops_last_users (fun _ => None) up "k" (-1)
           st0 200
           (search_body (map user_item users))
           (JDict [("cards"%string,
                    JList [JDict [("card_type"%string, JInt 11)];
                           JDict [("card_group"%string,
                                   JList (map user_item users))]])])
           (JDict [("card_type"%string, JInt 11)])
           (JDict [("card_group"%string, JList (map user_item users))])
           [] users); try reflexivity; lia.
Defined.

Lemma search_fails_on_any_bad_item_witness :
  let users := [mkSearchResult 3 "c" "https://example.org/c.jpg" "third"] in
  let bad := JDict [("card_type"%string, JInt 42)] in
  let group := (map user_item users ++ [bad])%list in
  let up := constant_upstream (Reply 200 (Some (search_body group))) in
  py_getitem bad "user" = Raise KeyError /\
  search_weibo_users (fun _ => None) up "k" 1 st0
    = (Raise KeyError, mkState [SearchReq "k"] []).
Proof.
  intros users bad group up. split; [reflexivity|].
  apply (search_fails_on_any_bad_item (fun _ => None) up "k" 1 st0 200
           (search_body group)
           (JDict [("cards"%string,
                    JList [JDict [("card_type"%string, JInt 11)];
                           JDict [("card_group"%string, JList group)]])])
           (JDict [("card_type"%string, JInt 11)])
           (JDict [("card_group"%string, JList group)])
           [] users bad [] KeyError); reflexivity.
Defined.

Lemma transport_failure_is_caught_witness :
  let up := constant_upstream TransportFailure in
  up (requests st0) (ProfileReq 7) = TransportFailure /\
  up (requests st0) (SearchReq "k") = TransportFailure /\
  extract_weibo_profile up 7 st0
    = (Ok (JDict []), mkState [ProfileReq 7] [ProfileFailed 7]) /\
  _get_container_id up 7 st0
    = (Ok JNull, mkState [ProfileReq 7] [ContainerIdFailed 7]) /\
  search_weibo_users (fun _ => None) up "k" 5 st0
    = (Ok [], mkState [SearchReq "k"] [SearchFailed "k"]).
Proof.
  intros up. split; [reflexivity|]. split; [reflexivity|].
  apply (transport_failure_is_caught (fun _ => None) up 7 "k" 5 st0);
    reflexivity.
Defined.

Lemma nonpositive_limit_fetches_no_page_witness :
  -3 <= 0 /\
  exists r st',
    extract_weibo_feeds 1 five_page_upstream 7 (-3) st0 = Some (r, st') /\
    requests st' = requests_after five_page_upstream st0 (ProfileReq 7) /\
    page_fetches (requests st') = page_fetches (requests st0) /\
    (r = Ok [] \/
     exists e, r = Raise e /\
               fst (_get_container_id five_page_upstream 7 st0) = Raise e).
Proof.
  split; [lia|].
  apply (nonpositive_limit_fetches_no_page 0 five_page_upstream 7 (-3) st0).
  lia.
Defined.

(** ** A failure in the middle of a traversal *)

(** Pages already gathered are lost when a later fetch fails in transport:
    after a first page with entries and a cursor, a second request that
    raises [httpx.HTTPError] makes the whole call raise [ValidationError]
    (the failure is logged, and the second request carried the cursor of
    the first page). *)
Theorem transport_failure_after_a_page_loses_it
    fuel up uid limit st cid st1 c1 p1 st2 :
  _get_container_id up uid st = (Ok cid, st1) ->
  _extract_feeds up uid cid (CStr "") st1 = (Ok (mkPagedFeeds c1 p1), st2) ->
  p1 <> [] ->
  since_truthy c1 = true ->
  Z.of_nat (List.length p1) < limit ->
  up (requests st2) (FeedsReq uid cid c1) = TransportFailure ->
  extract_weibo_feeds (S (S fuel)) up uid limit st
    = Some (Raise ValidationError,
            mkState (requests st2 ++ [FeedsReq uid cid c1])
                    (logged st2 ++ [FeedsFailed uid])).
Proof.
  intros Hcid Hp1 Hne Htruthy Hlen Hfail.
  unfold extract_weibo_feeds. rewrite Hcid.
  rewrite (feeds_loop_next (S fuel) up uid cid limit [] (CStr "") st1
             (mkPagedFeeds c1 p1) st2);
    [| simpl; lia | exact Hp1 | exact Hne | exact Htruthy].
  simpl Feeds; simpl SinceId; simpl app.
  rewrite feeds_loop_S. apply Z.ltb_lt in Hlen. rewrite Hlen.
  unfold _extract_feeds; unfold_py. rewrite Hfail. reflexivity.
Qed.

Lemma transport_failure_after_a_page_loses_it_witness :
  let up : Upstream :=
    fun hist req =>
      if (page_fetches hist =? 0)%nat then five_page_upstream hist req
      else TransportFailure in
  let cid := JStr "1076031" in
  let c1 := CStr "4900000000000001" in
  let st1 := mkState [ProfileReq 7] [] in
  let st2 := mkState [ProfileReq 7; FeedsReq 7 cid (CStr "")] [] in
  _get_container_id up 7 st0 = (Ok cid, st1) /\
  _extract_feeds up 7 cid (CStr "") st1
    = (Ok (mkPagedFeeds c1 (sample_page 0)), st2) /\
  Z.of_nat (List.length (sample_page 0)) < 25 /\
  up (requests st2) (FeedsReq 7 cid c1) = TransportFailure /\
  extract_weibo_feeds 2 up 7 25 st0
    = Some (Raise ValidationError,
            mkState [ProfileReq 7; FeedsReq 7 cid (CStr ""); FeedsReq 7 cid c1]
                    [FeedsFailed 7]).
Proof.
  intros up cid c1 st1 st2.
  split; [reflexivity|]. split; [reflexivity|].
  split; [simpl; lia|]. split; [reflexivity|].
  apply (transport_failure_after_a_page_loses_it 0 up 7 25 st0 cid st1 c1
           (sample_page 0) st2);
    [reflexivity | reflexivity | discriminate | reflexivity | simpl; lia
    | reflexivity].
Defined.


(** ** URLs that httpx refuses *)

Lemma paged_upstream_refuses_control_characters profile pages :
  refuses_control_characters (paged_upstream profile pages).
Proof.
  intros hist req Hctl. unfold paged_upstream.
  destruct req; try discriminate. rewrite Hctl. reflexivity.
Defined.

Lemma _extract_feeds_control_char up uid cid since st :
  refuses_control_characters up ->
  url_has_control_char (FeedsReq uid cid since) = true ->
  _extract_feeds up uid cid since st = (Raise InvalidURL, st).
Proof.
  intros Hup Hctl. apply _extract_feeds_refused. apply Hup. exact Hctl.
Qed.

(** A container id or a cursor that is a [str] with an ASCII control
    character in it never reaches the service: httpx refuses the URL,
    [_extract_feeds] raises [httpx.InvalidURL], and nothing is sent or
    logged. *)
Theorem control_character_in_page_url_is_refused up uid cid since st :
  refuses_control_characters up ->
  url_has_control_char (FeedsReq uid cid since) = true ->
  _extract_feeds up uid cid since st = (Raise InvalidURL, st).
Proof.
  intros Hup Hctl. apply _extract_feeds_control_char; assumption.
Qed.

Lemma control_character_in_page_url_is_refused_witness :
  let up := paged_upstream TransportFailure five_pages in
  let newline := CStr (String (ascii_of_nat 10) EmptyString) in
  refuses_control_characters up /\
  url_has_control_char (FeedsReq 7 (JStr "1076031") newline) = true /\
  _extract_feeds up 7 (JStr "1076031") newline st0 = (Raise InvalidURL, st0).
Proof.
  intros up newline.
  assert (Hup : refuses_control_characters up)
    by apply paged_upstream_refuses_control_characters.
  split; [exact Hup|]. split; [reflexivity|].
  apply (control_character_in_page_url_is_refused up 7 (JStr "1076031")
           newline st0 Hup). reflexivity.
Defined.

(** A page whose cursor holds a control character ends the traversal in an
    exception: when more entries are wanted after it, the next fetch is
    refused, the call raises [httpx.InvalidURL], the entries gathered are
    lost, and the fetch of that page is the last request sent. *)
Theorem cursor_with_control_character_aborts_traversal
    fuel up uid cid limit feeds since st s entries st1 :
  refuses_control_characters up ->
  _extract_feeds up uid cid since st = (Ok (mkPagedFeeds (CStr s) entries), st1) ->
  entries <> [] ->
  has_control_char s = true ->
  Z.of_nat (List.length (feeds ++ entries)%list) < limit ->
  feeds_loop (S (S fuel)) up uid cid limit feeds since st
    = Some (Raise InvalidURL, st1) /\
  requests st1 = (requests st ++ [FeedsReq uid cid since])%list.
Proof.
  intros Hup Hfetch Hne Hctl Hlen.
  split; [|exact (_extract_feeds_requests _ _ _ _ _ _ _ Hfetch)].
  assert (Htruthy : since_truthy (CStr s) = true)
    by (destruct s; [discriminate | reflexivity]).
  rewrite (feeds_loop_next _ up uid cid limit feeds since st
             (mkPagedFeeds (CStr s) entries) st1);
    [| rewrite length_app in Hlen; lia | exact Hfetch | exact Hne
     | exact Htruthy].
  simpl Feeds; simpl SinceId.
  rewrite feeds_loop_S. apply Z.ltb_lt in Hlen. rewrite Hlen.
  rewrite (_extract_feeds_control_char up uid cid (CStr s) st1 Hup);
    [reflexivity|].
  simpl. rewrite Hctl. apply orb_true_r.
Qed.

Lemma cursor_with_control_character_aborts_traversal_witness :
  let tab := String (ascii_of_nat 9) "4900000000000001" in
  let up := paged_upstream TransportFailure
              [(sample_page 0, CStr tab); (sample_page 10, CStr "")] in
  let cid := JStr "1076031" in
  let st1 := mkState [FeedsReq 7 cid (CStr "")] [] in
  refuses_control_characters up /\
  _extract_feeds up 7 cid (CStr "") st0
    = (Ok (mkPagedFeeds (CStr tab) (sample_page 0)), st1) /\
  has_control_char tab = true /\
  feeds_loop 2 up 7 cid 25 [] (CStr "") st0 = Some (Raise InvalidURL, st1) /\
  requests st1 = (requests st0 ++ [FeedsReq 7 cid (CStr "")])%list.
Proof.
  intros tab up cid st1.
  assert (Hup : refuses_control_characters up)
    by apply paged_upstream_refuses_control_characters.
  split; [exact Hup|]. split; [reflexivity|]. split; [reflexivity|].
  apply (cursor_with_control_character_aborts_traversal 0 up 7 cid 25 []
           (CStr "") st0 tab (sample_page 0) st1 Hup);
    [reflexivity | discriminate | reflexivity | simpl; lia].
Defined.
